(** * Memory manager of the agent runtime: model and verified properties

    Source: [packages/core/src/memory.ts], class [MemoryManager].

    The manager validates, enriches and routes memory records, and talks to
    two collaborators it does not implement: the database adapter (the
    Store) and the text-embedding model (the Embedder).  Both are reached
    through [this.runtime]; here they are parameters of the model. *)

From Stdlib Require Import Floats String Ascii List Bool Arith Lia.
Import ListNotations.
Local Open Scope string_scope.
Local Open Scope bool_scope.

Set Implicit Arguments.
Set Warnings "-register-all".

(* ===================================================================== *)
(** * JavaScript values *)
(* ===================================================================== *)

(** A JavaScript [number] is an IEEE 754 double. *)
Definition number := float.

(** The values a metadata field can hold at run time.  The TypeScript
    annotations are erased when the program runs, and [validateMetadata]
    exists precisely to inspect values of the wrong type, so the fields of a
    metadata object are dynamically typed here.  Functions, symbols and
    bigints are left out: no test of the manager tells them from objects,
    except that the bigint zero is falsy. *)
Inductive JSValue : Type :=
| JSUndefined
| JSNull
| JSBoolean (b : bool)
| JSNumber (n : number)
| JSString (s : string)
| JSArray (items : list JSValue)
| JSObject (props : list (string * JSValue)).

(** [ToBoolean]: what [if (x)], [!x] and [x && y] test. *)
Class ToBoolean (A : Type) := truthy : A -> bool.

#[export] Instance ToBoolean_JSValue : ToBoolean JSValue := fun v =>
  match v with
  | JSUndefined => false
  | JSNull => false
  | JSBoolean b => b
  | JSNumber n => negb (PrimFloat.is_zero n || PrimFloat.is_nan n)
  | JSString s => negb (s =? "")
  | JSArray _ => true
  | JSObject _ => true
  end.

(** A property that holds an object (or is [undefined]/[null]): every object
    is truthy, also an empty array. *)
#[export] Instance ToBoolean_object {A : Type} : ToBoolean (option A) := fun o =>
  match o with
  | Some _ => true
  | None => false
  end.

(** The [typeof] operator. *)
Definition typeof (v : JSValue) : string :=
  match v with
  | JSUndefined => "undefined"
  | JSNull => "object"
  | JSBoolean _ => "boolean"
  | JSNumber _ => "number"
  | JSString _ => "string"
  | JSArray _ => "object"
  | JSObject _ => "object"
  end.

(** [Array.isArray]. *)
Definition Array_isArray (v : JSValue) : bool :=
  match v with
  | JSArray _ => true
  | _ => false
  end.

(** [x === undefined]. *)
Definition is_undefined (v : JSValue) : bool :=
  match v with
  | JSUndefined => true
  | _ => false
  end.

(** [[s1, ..., sn].includes(v)] for an array literal of strings: only a
    primitive string with the same characters is found. *)
Definition includes (l : list string) (v : JSValue) : bool :=
  match v with
  | JSString s => existsb (String.eqb s) l
  | _ => false
  end.

(** What [throw new Error(message)] raises; a failure of a collaborator is
    an exception as well. *)
Inductive Exception : Type :=
| Error (message : string).

(** Outcome of a call: it returns a value or it throws. *)
Inductive Result (A : Type) : Type :=
| OK (a : A)
| Throw (e : Exception).
Arguments OK {A} a.
Arguments Throw {A} e.

(* ===================================================================== *)
(** * Data model *)
(* ===================================================================== *)

(** Modelled from the spec: the type declaration [UUID] lives in
    [types.ts]; the data model calls it a unique identifier.  An identifier
    is a string with at least one character. *)
Record UUID : Type := mkUUID { uuid_head : ascii; uuid_tail : string }.

Definition uuid_string (u : UUID) : string := String (uuid_head u) (uuid_tail u).

(** An optional identifier as the JavaScript value it is. *)
Definition uuid_value (u : option UUID) : JSValue :=
  match u with
  | Some u => JSString (uuid_string u)
  | None => JSUndefined
  end.

Definition UUID_eqb (a b : UUID) : bool :=
  Ascii.eqb (uuid_head a) (uuid_head b) && String.eqb (uuid_tail a) (uuid_tail b).

(** [a === b] on optional identifiers ([undefined] or a string). *)
Definition strict_eq (a b : option UUID) : bool :=
  match a, b with
  | Some x, Some y => UUID_eqb x y
  | None, None => true
  | _, _ => false
  end.

(** Modelled from the spec: [KnowledgeMetadata] ([types.ts]), with the
    fields of the data model.  An absent field reads as [JSUndefined]. *)
Record KnowledgeMetadata : Type := mkMetadata {
  type : JSValue;
  sourceId : JSValue;
  chunkIndex : JSValue;
  source : JSValue;
  scope : JSValue;
  tags : JSValue;
  timestamp : JSValue
}.

Record Content : Type := mkContent {
  text : option string;
  metadata : option KnowledgeMetadata
}.

(** Modelled from the spec: [Memory] ([types.ts]), with the fields of the
    data model. *)
Record Memory : Type := mkMemory {
  id : UUID;
  agentId : option UUID;
  roomId : UUID;
  content : Content;
  embedding : option (list number)
}.

(** Empty text is falsy, like missing text. *)
Definition text_value (t : option string) : JSValue :=
  match t with
  | Some s => JSString s
  | None => JSUndefined
  end.

(** Assignments to the properties the manager writes. *)
Definition set_timestamp (v : JSValue) (md : KnowledgeMetadata) : KnowledgeMetadata :=
  mkMetadata (type md) (sourceId md) (chunkIndex md) (source md) (scope md) (tags md) v.

Definition set_scope (v : JSValue) (md : KnowledgeMetadata) : KnowledgeMetadata :=
  mkMetadata (type md) (sourceId md) (chunkIndex md) (source md) v (tags md) (timestamp md).

Definition set_source (v : JSValue) (md : KnowledgeMetadata) : KnowledgeMetadata :=
  mkMetadata (type md) (sourceId md) (chunkIndex md) v (scope md) (tags md) (timestamp md).

Definition set_metadata (md : option KnowledgeMetadata) (memory : Memory) : Memory :=
  mkMemory (id memory) (agentId memory) (roomId memory)
           (mkContent (text (content memory)) md) (embedding memory).

Definition set_embedding (v : option (list number)) (memory : Memory) : Memory :=
  mkMemory (id memory) (agentId memory) (roomId memory) (content memory) v.

(** [memory.content.metadata.f = v], when the metadata object exists. *)
Definition update_metadata (f : KnowledgeMetadata -> KnowledgeMetadata) (memory : Memory) : Memory :=
  set_metadata (option_map f (metadata (content memory))) memory.

(* ===================================================================== *)
(** * Collaborators and effects *)
(* ===================================================================== *)

(** The collaborators are interfaces of the runtime.  [W] is the state they
    keep between calls (the database rows, the model's availability, the
    clock); the manager itself keeps none. *)
Module DatabaseAdapter.
Record IDatabaseAdapter (W : Type) : Type := {
  getMemoryById : UUID -> W -> Result (option Memory) * W;
  createMemory : Memory -> string -> bool -> W -> Result unit * W
}.
End DatabaseAdapter.

Module Runtime.
Record IAgentRuntime (W : Type) : Type := {
  agentId : option UUID;
  (** [useModel(ModelClass.TEXT_EMBEDDING, input)] *)
  useModel : JSValue -> W -> Result (list number) * W;
  databaseAdapter : DatabaseAdapter.IDatabaseAdapter W
}.
End Runtime.

(** Every call that leaves the manager, in the order it is made. *)
Inductive Call : Type :=
| Call_getMemoryById (id : UUID)
| Call_createMemory (memory : Memory) (tableName : string) (unique : bool)
| Call_useModel (input : JSValue)
| Call_Date_now
| Call_logger_debug (message : string)
| Call_logger_error (message : string) (error : Exception)
| Call_logger_log (message : string) (id : UUID) (text : option string).

Record World (W : Type) : Type := mkWorld {
  ext : W;
  calls : list Call
}.

(** A method body that works on the object its parameter [memory] refers
    to: the object is mutated in place, and a mutation made before a throw
    stays. *)
Definition Mut (W A : Type) : Type :=
  Memory -> World W -> Result A * Memory * World W.

Section Effects.
Context {W : Type}.

Definition ret {A : Type} (a : A) : Mut W A :=
  fun memory w => (OK a, memory, w).

Definition throw {A : Type} (e : Exception) : Mut W A :=
  fun memory w => (Throw e, memory, w).

Definition bind {A B : Type} (c : Mut W A) (k : A -> Mut W B) : Mut W B :=
  fun memory w =>
    match c memory w with
    | (OK a, memory', w') => k a memory' w'
    | (Throw e, memory', w') => (Throw e, memory', w')
    end.

(** [try { c } catch (error) { handler }] *)
Definition try_catch {A : Type} (c : Mut W A) (handler : Exception -> Mut W A) : Mut W A :=
  fun memory w =>
    match c memory w with
    | (OK a, memory', w') => (OK a, memory', w')
    | (Throw e, memory', w') => handler e memory' w'
    end.

(** The current state of the object. *)
Definition read : Mut W Memory :=
  fun memory w => (OK memory, memory, w).

(** An assignment to one of its properties. *)
Definition assign (f : Memory -> Memory) : Mut W unit :=
  fun memory w => (OK tt, f memory, w).

(** An awaited call to a collaborator. *)
Definition perform {A : Type} (c : Call) (op : W -> Result A * W) : World W -> Result A * World W :=
  fun w =>
    let (r, e) := op (ext w) in
    (r, mkWorld e (calls w ++ [c])).

Definition call {A : Type} (c : Call) (op : W -> Result A * W) : Mut W A :=
  fun memory w =>
    let (r, w') := perform c op w in
    (r, memory, w').

(** The logger only records. *)
Definition logger (c : Call) : Mut W unit :=
  call c (fun e => (OK tt, e)).
End Effects.

Declare Scope mut_scope.
Delimit Scope mut_scope with mut.
Notation "x <- c ;; k" := (bind c (fun x => k))
  (at level 61, c at next level, right associativity) : mut_scope.
Notation "c ;; k" := (bind c (fun _ => k))
  (at level 61, right associativity) : mut_scope.

(* ===================================================================== *)
(** * The memory manager *)
(* ===================================================================== *)

(** The double-quote character, for the one message that quotes its words. *)
Definition dq : string := String (ascii_of_nat 34) EmptyString.

(** [validateMetadata] (memory.ts, lines 40-70).  It reads its argument and
    either returns or throws; it has no other effect, hence the type. *)
Definition validateMetadata (metadata : KnowledgeMetadata) : Result unit :=
  (* Validate type is present and valid *)
  if negb (truthy (type metadata))
     || negb (includes ["document"; "fragment"; "message"; "fact"] (type metadata))
  then Throw (Error "Invalid memory type")
  (* Validate sourceId if present *)
  else if truthy (sourceId metadata) && negb (typeof (sourceId metadata) =? "string")
  then Throw (Error "Metadata sourceId must be a UUID string")
  (* Validate chunkIndex if present *)
  else if negb (is_undefined (chunkIndex metadata))
          && negb (typeof (chunkIndex metadata) =? "number")
  then Throw (Error "Metadata chunkIndex must be a number")
  (* Validate source if present *)
  else if truthy (source metadata) && negb (typeof (source metadata) =? "string")
  then Throw (Error "Metadata source must be a string")
  (* Validate scope if present *)
  else if truthy (scope metadata)
          && negb (includes ["shared"; "private"; "room"] (scope metadata))
  then Throw (Error ("Metadata scope must be " ++ dq ++ "shared" ++ dq ++ ", "
                       ++ dq ++ "private" ++ dq ++ ", or " ++ dq ++ "room" ++ dq))
  (* Validate tags if present *)
  else if truthy (tags metadata) && negb (Array_isArray (tags metadata))
  then Throw (Error "Metadata tags must be an array of strings")
  else OK tt.

Record MemoryManager (W : Type) : Type := {
  runtime : Runtime.IAgentRuntime W;
  tableName : string
}.

Section Methods.
Context {W : Type}.

(** [Date.now()], a reading of the clock the collaborators' state holds. *)
Variable Date_now : W -> number * W.

Variable this : MemoryManager W.

Local Open Scope mut_scope.

Definition useModel (input : JSValue) : Mut W (list number) :=
  call (Call_useModel input) (Runtime.useModel (runtime this) input).

Definition now : Mut W number :=
  call Call_Date_now (fun e => let (t, e') := Date_now e in (OK t, e')).

(** A pure check run inside a method: its throw is the method's. *)
Definition check (r : Result unit) : Mut W unit :=
  match r with
  | OK _ => ret tt
  | Throw e => throw e
  end.

(** [addEmbeddingToMemory] (lines 86-111). *)
Definition addEmbeddingToMemory_body : Mut W Memory :=
  memory <- read ;;
  (* Return early if embedding already exists *)
  if truthy (embedding memory) then
    ret memory
  else
    let memoryText := text_value (text (content memory)) in
    (* Validate memory has text content *)
    if negb (truthy memoryText) then
      throw (Error "Cannot generate embedding: Memory content is empty")
    else
      try_catch
        (* Generate embedding from text content *)
        (v <- useModel memoryText ;;
         assign (set_embedding (Some v)))
        (fun error =>
           logger (Call_logger_error "Failed to generate embedding:" error) ;;
           (* Fallback to zero vector if embedding fails *)
           v <- useModel JSNull ;;
           assign (set_embedding (Some v))) ;;
      memory <- read ;;
      ret memory.

Definition addEmbeddingToMemory (memory : Memory) : World W -> Result Memory * Memory * World W :=
  addEmbeddingToMemory_body memory.

(** [getTableNameForType] (lines 257-269): a [switch] compares with [===]. *)
Definition getTableNameForType (type : JSValue) : string :=
  match type with
  | JSString s =>
      if s =? "document" then "knowledge"
      else if s =? "fragment" then "knowledge"
      else if s =? "message" then "messages"
      else if s =? "fact" then "facts"
      else tableName this (* Fallback to instance table name *)
  | _ => tableName this
  end.

(** Lines 210-218 of [createMemory]: initialize metadata. *)
Definition initMetadata : Mut W unit :=
  memory <- read ;;
  if negb (truthy (metadata (content memory))) then
    t <- now ;;
    assign (set_metadata (Some {|
      type := JSString (if tableName this =? "knowledge" then "document" else "message");
      sourceId := JSUndefined;
      chunkIndex := JSUndefined;
      source := JSString (tableName this);
      scope := JSString (if truthy (uuid_value (agentId memory)) then "private" else "shared");
      tags := JSUndefined;
      timestamp := JSNumber t
    |}))
  else ret tt.

(** Reading [memory.content.metadata] to get at one of its properties: on a
    missing object the property access is a TypeError. *)
Definition the_metadata : Mut W KnowledgeMetadata :=
  memory <- read ;;
  match metadata (content memory) with
  | Some md => ret md
  | None => throw (Error "Cannot read properties of undefined")
  end.

(** Lines 220-239 of [createMemory]: handle metadata if present. *)
Definition handleMetadata : Mut W unit :=
  memory <- read ;;
  if truthy (metadata (content memory)) then
    (* Validate metadata *)
    md <- the_metadata ;;
    check (validateMetadata md) ;;
    (* Ensure timestamp *)
    md <- the_metadata ;;
    (if negb (truthy (timestamp md)) then
       t <- now ;;
       assign (update_metadata (set_timestamp (JSNumber t)))
     else ret tt) ;;
    (* Set default scope if not present *)
    md <- the_metadata ;;
    (if negb (truthy (scope md)) then
       memory <- read ;;
       assign (update_metadata (set_scope
         (JSString (if truthy (uuid_value (agentId memory)) then "private" else "shared"))))
     else ret tt) ;;
    (* Set source if not present *)
    md <- the_metadata ;;
    (if negb (truthy (source md)) then
       assign (update_metadata (set_source (JSString (tableName this))))
     else ret tt)
  else ret tt.

(** Line 241 of [createMemory]. *)
Definition logCreating : Mut W unit :=
  memory <- read ;;
  logger (Call_logger_log "Creating Memory" (id memory) (text (content memory))).

(** Lines 243-245 of [createMemory]. *)
Definition fillEmbedding : Mut W unit :=
  memory <- read ;;
  if negb (truthy (embedding memory)) then
    v <- useModel JSNull ;;
    assign (set_embedding (Some v))
  else ret tt.

(** Lines 247-251 of [createMemory]. *)
Definition persist (unique : bool) : Mut W unit :=
  memory <- read ;;
  md <- the_metadata ;;
  let table := getTableNameForType (type md) in
  call (Call_createMemory memory table unique)
       (DatabaseAdapter.createMemory (Runtime.databaseAdapter (runtime this))
                                     memory table unique).

(** [createMemory] (lines 202-252). *)
Definition createMemory_body (unique : bool) : Mut W unit :=
  memory <- read ;;
  existingMessage <- call (Call_getMemoryById (id memory))
                          (DatabaseAdapter.getMemoryById
                             (Runtime.databaseAdapter (runtime this)) (id memory)) ;;
  if truthy existingMessage then
    logger (Call_logger_debug "Memory already exists, skipping")
  else
    initMetadata ;;
    handleMetadata ;;
    logCreating ;;
    fillEmbedding ;;
    persist unique.

Definition createMemory (memory : Memory) (unique : bool) : World W -> Result unit * Memory * World W :=
  createMemory_body unique memory.

(** [getMemoryById] (lines 280-284). *)
Definition getMemoryById (id : UUID) (w : World W) : Result (option Memory) * World W :=
  let (r, w') := perform (Call_getMemoryById id)
                         (DatabaseAdapter.getMemoryById
                            (Runtime.databaseAdapter (runtime this)) id) w in
  match r with
  | Throw e => (Throw e, w')
  | OK result =>
      match result with
      | Some record =>
          if negb (strict_eq (agentId record) (Runtime.agentId (runtime this)))
          then (OK None, w')
          else (OK result, w')
      | None => (OK result, w')
      end
  end.

End Methods.

Arguments createMemory {W} Date_now this memory unique w.
Arguments addEmbeddingToMemory {W} this memory w.
Arguments getMemoryById {W} this id w.
Arguments getTableNameForType {W} this type.

(* ===================================================================== *)
(** * A runtime to run the manager against *)
(* ===================================================================== *)

(** An in-memory database, a clock and an embedding model that fails on the
    texts listed in [unavailable_for]. *)
Module Sim.

Record State : Type := mkState {
  rows : list (Memory * string);
  clock : number;
  unavailable_for : list string
}.

Definition find_row (id' : UUID) (s : State) : option Memory :=
  option_map fst (find (fun row => UUID_eqb (id (fst row)) id') (rows s)).

Definition adapter : DatabaseAdapter.IDatabaseAdapter State := {|
  DatabaseAdapter.getMemoryById := fun id s => (OK (find_row id s), s);
  DatabaseAdapter.createMemory := fun memory table _ s =>
    (OK tt, mkState (rows s ++ [(memory, table)]) (clock s) (unavailable_for s))
|}.

(** The zero vector the model answers [null] with. *)
Definition zero_vector : list number := [0%float; 0%float; 0%float].

Definition embed (input : JSValue) (s : State) : Result (list number) * State :=
  match input with
  | JSString t =>
      if existsb (String.eqb t) (unavailable_for s)
      then (Throw (Error "embedding model unavailable"), s)
      else (OK [1%float; PrimFloat.of_uint63 (Uint63.of_nat (String.length t)); 0.5%float], s)
  | _ => (OK zero_vector, s)
  end.

Definition agent (name : string) : UUID := mkUUID "a" name.

Definition agent_runtime (agentId : option UUID) : Runtime.IAgentRuntime State := {|
  Runtime.agentId := agentId;
  Runtime.useModel := embed;
  Runtime.databaseAdapter := adapter
|}.

Definition Date_now (s : State) : number * State :=
  (clock s, mkState (rows s) (PrimFloat.add (clock s) 1%float) (unavailable_for s)).

Definition manager (agentId : option UUID) (tableName : string) : MemoryManager State := {|
  runtime := agent_runtime agentId;
  tableName := tableName
|}.

Definition start (s : State) : World State := mkWorld s [].

End Sim.

(* ===================================================================== *)
(** * Reading a trace *)
(* ===================================================================== *)

(** The records handed to the Store's create, with partition and flag. *)
Definition created (cs : list Call) : list (Memory * string * bool) :=
  flat_map (fun c => match c with
                     | Call_createMemory memory table unique => [(memory, table, unique)]
                     | _ => []
                     end) cs.

(** The inputs the Embedder was invoked with. *)
Definition embedder_inputs (cs : list Call) : list JSValue :=
  flat_map (fun c => match c with
                     | Call_useModel input => [input]
                     | _ => []
                     end) cs.

(** A world in which the manager has not called anything yet. *)
Definition fresh {W : Type} (x : W) : World W := mkWorld x [].

(* ===================================================================== *)
(** * Vocabulary of the properties *)
(* ===================================================================== *)

(** A field is present when the object has a value for it. *)
Definition present (v : JSValue) : bool := negb (is_undefined v).

(** The conditions of the validator's contract, read as they are worded:
    the type is missing or outside its closed set, or one of the optional
    fields is present with a value of the wrong kind. *)
Definition listed_condition (md : KnowledgeMetadata) : bool :=
  (negb (present (type md))
   || negb (includes ["document"; "fragment"; "message"; "fact"] (type md)))
  || (present (sourceId md) && negb (typeof (sourceId md) =? "string"))
  || (present (chunkIndex md) && negb (typeof (chunkIndex md) =? "number"))
  || (present (source md) && negb (typeof (source md) =? "string"))
  || (present (scope md) && negb (includes ["shared"; "private"; "room"] (scope md)))
  || (present (tags md) && negb (Array_isArray (tags md))).

(** The conditions the validator tests: presence of [sourceId], [source],
    [scope] and [tags] is tested by truthiness, so [null], [false], [0],
    [NaN] and the empty string count as absent for them; only [chunkIndex]
    is compared with [undefined]. *)
Definition rejected (md : KnowledgeMetadata) : Prop :=
  includes ["document"; "fragment"; "message"; "fact"] (type md) = false
  \/ (truthy (sourceId md) = true /\ typeof (sourceId md) <> "string")
  \/ (chunkIndex md <> JSUndefined /\ typeof (chunkIndex md) <> "number")
  \/ (truthy (source md) = true /\ typeof (source md) <> "string")
  \/ (truthy (scope md) = true
      /\ includes ["shared"; "private"; "room"] (scope md) = false)
  \/ (truthy (tags md) = true /\ Array_isArray (tags md) = false).

(** C1 as worded: the embedding of every record handed to the Store's
    create during a call on [memory] is a vector the Embedder returned for
    the text of [memory]. *)
Definition handed_embedding_is_of_text {W : Type} (this : MemoryManager W)
    (memory : Memory) (cs : list Call) : Prop :=
  forall stored table u,
    In (stored, table, u) (created cs) ->
    exists s v y y',
      text (content memory) = Some s
      /\ Runtime.useModel (runtime this) (JSString s) y = (OK v, y')
      /\ embedding stored = Some v.

(** C4 as worded: every field the caller supplied in [md] has the same
    value in [md']. *)
Definition supplied_fields_kept (md md' : KnowledgeMetadata) : Prop :=
  (present (type md) = true -> type md' = type md)
  /\ (present (timestamp md) = true -> timestamp md' = timestamp md)
  /\ (present (scope md) = true -> scope md' = scope md)
  /\ (present (source md) = true -> source md' = source md)
  /\ (present (sourceId md) = true -> sourceId md' = sourceId md)
  /\ (present (chunkIndex md) = true -> chunkIndex md' = chunkIndex md)
  /\ (present (tags md) = true -> tags md' = tags md).

(** The default scope: private to the owning agent when there is one. *)
Definition default_scope (memory : Memory) : JSValue :=
  JSString (match agentId memory with
            | Some _ => "private"
            | None => "shared"
            end).

(** The metadata of step 2 for a manager configured for [partition], at
    clock reading [t]. *)
Definition synthesized (partition : string) (memory : Memory) (t : number) : KnowledgeMetadata := {|
  type := JSString (if partition =? "knowledge" then "document" else "message");
  sourceId := JSUndefined;
  chunkIndex := JSUndefined;
  source := JSString partition;
  scope := default_scope memory;
  tags := JSUndefined;
  timestamp := JSNumber t
|}.

(** Step 3 on caller-supplied metadata: a falsy [timestamp], [scope] or
    [source] gets the default, everything else stays. *)
Definition backfilled (partition : string) (memory : Memory) (t : number)
    (md : KnowledgeMetadata) : KnowledgeMetadata := {|
  type := type md;
  sourceId := sourceId md;
  chunkIndex := chunkIndex md;
  source := if truthy (source md) then source md else JSString partition;
  scope := if truthy (scope md) then scope md else default_scope memory;
  tags := tags md;
  timestamp := if truthy (timestamp md) then timestamp md else JSNumber t
|}.

(** Concrete records and states the properties are exercised on. *)
Module Examples.

Definition a1 : UUID := mkUUID "a" "1".
Definition a2 : UUID := mkUUID "a" "2".
Definition m1_id : UUID := mkUUID "m" "1".
Definition r1 : UUID := mkUUID "r" "1".

(** [{id: m1, roomId: r1, text: hello, agentId: a1}], no metadata, no
    embedding. *)
Definition hello : Memory :=
  mkMemory m1_id (Some a1) r1 (mkContent (Some "hello") None) None.

(** The same record, already embedded. *)
Definition hello_embedded : Memory :=
  set_embedding (Some [0.25%float; 0.75%float]) hello.

(** A shared record: no owning agent. *)
Definition shared_note : Memory :=
  mkMemory m1_id None r1 (mkContent (Some "note") None) (Some [1%float]).

Definition bare (type : string) : KnowledgeMetadata :=
  mkMetadata (JSString type) JSUndefined JSUndefined JSUndefined JSUndefined
             JSUndefined JSUndefined.

(** [{type: fact, source: 0}]: a source that is there and is not a string. *)
Definition fact_with_numeric_source : KnowledgeMetadata :=
  set_source (JSNumber 0%float) (bare "fact").

(** [{type: fact, source: (empty string), scope: room, timestamp: 0}]: every
    field given by the caller, of the declared kind. *)
Definition fact_at_epoch : KnowledgeMetadata :=
  set_timestamp (JSNumber 0%float)
    (set_scope (JSString "room") (set_source (JSString EmptyString) (bare "fact"))).

(** [{type: fact, tags: [a]}] *)
Definition tagged_fact : KnowledgeMetadata :=
  mkMetadata (JSString "fact") JSUndefined JSUndefined JSUndefined JSUndefined
             (JSArray [JSString "a"]) JSUndefined.

Definition with_metadata (md : KnowledgeMetadata) : Memory :=
  set_metadata (Some md) hello.

Definition empty_db : Sim.State := Sim.mkState [] 1000%float [].
Definition model_down : Sim.State := Sim.mkState [] 1000%float ["hello"].
Definition db_with (memory : Memory) : Sim.State :=
  Sim.mkState [(memory, "facts")] 1000%float [].

Definition knowledge_manager : MemoryManager Sim.State := Sim.manager (Some a1) "knowledge".
Definition facts_manager : MemoryManager Sim.State := Sim.manager (Some a1) "facts".

Definition messages_manager : MemoryManager Sim.State := Sim.manager (Some a1) "messages".

(** The end-to-end run: [hello] created on the knowledge manager. *)
Definition first_create : Result unit * Memory * World Sim.State :=
  createMemory Sim.Date_now knowledge_manager hello false (fresh empty_db).

(** A second create under the same id, with other content, on the database
    the first one left. *)
Definition second_create : Result unit * Memory * World Sim.State :=
  createMemory Sim.Date_now knowledge_manager
               (mkMemory m1_id None r1 (mkContent (Some "changed") (Some (bare "fact"))) None)
               true (fresh (ext (snd first_create))).

(** A tagged fact created through the messages manager. *)
Definition fact_create : Result unit * Memory * World Sim.State :=
  createMemory Sim.Date_now messages_manager (with_metadata tagged_fact) false
               (fresh empty_db).

(** A fact whose timestamp is 0 and whose source is empty, created through
    the facts manager. *)
Definition epoch_create : Result unit * Memory * World Sim.State :=
  createMemory Sim.Date_now facts_manager (with_metadata fact_at_epoch) false
               (fresh empty_db).

End Examples.

(* ===================================================================== *)
(** * Query, count and delete *)
(* ===================================================================== *)

(** An optional property with a default: the default of a destructuring
    pattern or of a parameter is taken when the value is [undefined], and
    only then. *)
Definition default_to {A : Type} (d : A) (v : option A) : A :=
  match v with
  | Some a => a
  | None => d
  end.

(** The argument objects of the query methods.  A property that is left out
    (or passed on as [undefined]) is [None]. *)
Module GetMemories.
Record Options : Type := {
  roomId : UUID;
  count : option number;
  unique : option bool;
  start : option number;
  end_ : option number;
  agentId : option UUID
}.
Record Params : Type := {
  p_roomId : UUID;
  p_count : option number;
  p_unique : option bool;
  p_tableName : string;
  p_agentId : option UUID;
  p_start : option number;
  p_end : option number
}.
End GetMemories.

Module CachedEmbeddings.
Record Params : Type := {
  query_table_name : string;
  query_threshold : number;
  query_input : string;
  query_field_name : string;
  query_field_sub_name : string;
  query_match_count : number
}.
End CachedEmbeddings.

Module SearchMemories.
Record Options : Type := {
  embedding : list number;
  match_threshold : option number;
  count : option number;
  roomId : UUID;
  agentId : option UUID;
  unique : option bool
}.
Record Params : Type := {
  p_tableName : string;
  p_roomId : UUID;
  p_agentId : option UUID;
  p_embedding : list number;
  p_match_threshold : number;
  p_count : number;
  p_unique : bool
}.
End SearchMemories.

Module RoomIds.
Record Options : Type := {
  roomIds : list UUID;
  limit : option number;
  agentId : option UUID
}.
Record Params : Type := {
  p_tableName : string;
  p_agentId : option UUID;
  p_roomIds : list UUID;
  p_limit : option number
}.
End RoomIds.

(** The other methods of the database adapter the manager calls. *)
Module DatabaseQueries.
Record IDatabaseQueries (W : Type) : Type := {
  getMemories : GetMemories.Params -> W -> Result (list Memory) * W;
  getCachedEmbeddings :
    CachedEmbeddings.Params -> W -> Result (list (list number * number)) * W;
  searchMemories : SearchMemories.Params -> W -> Result (list Memory) * W;
  getMemoriesByRoomIds : RoomIds.Params -> W -> Result (list Memory) * W;
  removeMemory : UUID -> string -> W -> Result unit * W;
  removeAllMemories : UUID -> string -> W -> Result unit * W;
  countMemories : UUID -> bool -> string -> W -> Result number * W
}.
End DatabaseQueries.

(** The double nearest to 0.1, as in JavaScript. *)
#[warnings="-inexact-float"]
Definition defaultMatchThreshold : number := 0.1%float.
Definition defaultMatchCount : number := 10%float.

Section Passthrough.
Context {W : Type}.

(** [this.runtime.databaseAdapter], its query methods. *)
Variable adapter : DatabaseQueries.IDatabaseQueries W.

Variable this : MemoryManager W.

(** [getMemories] (lines 121-138). *)
Definition getMemories (opts : GetMemories.Options) : W -> Result (list Memory) * W :=
  DatabaseQueries.getMemories adapter {|
    GetMemories.p_roomId := GetMemories.roomId opts;
    GetMemories.p_count := GetMemories.count opts;
    GetMemories.p_unique := GetMemories.unique opts;
    GetMemories.p_tableName := tableName this;
    GetMemories.p_agentId := GetMemories.agentId opts;
    GetMemories.p_start := GetMemories.start opts;
    GetMemories.p_end := GetMemories.end_ opts
  |}.

(** [getCachedEmbeddings] (lines 140-154). *)
Definition getCachedEmbeddings (content : string) : W -> Result (list (list number * number)) * W :=
  DatabaseQueries.getCachedEmbeddings adapter {|
    CachedEmbeddings.query_table_name := tableName this;
    CachedEmbeddings.query_threshold := 2%float;
    CachedEmbeddings.query_input := content;
    CachedEmbeddings.query_field_name := "content";
    CachedEmbeddings.query_field_sub_name := "text";
    CachedEmbeddings.query_match_count := 10%float
  |}.

(** [searchMemories] (lines 166-194). *)
Definition searchMemories (opts : SearchMemories.Options) : W -> Result (list Memory) * W :=
  let match_threshold := default_to defaultMatchThreshold (SearchMemories.match_threshold opts) in
  let embedding := SearchMemories.embedding opts in
  let count := default_to defaultMatchCount (SearchMemories.count opts) in
  let roomId := SearchMemories.roomId opts in
  let agentId := SearchMemories.agentId opts in
  let unique := default_to true (SearchMemories.unique opts) in
  DatabaseQueries.searchMemories adapter {|
    SearchMemories.p_tableName := tableName this;
    SearchMemories.p_roomId := roomId;
    SearchMemories.p_agentId := agentId;
    SearchMemories.p_embedding := embedding;
    SearchMemories.p_match_threshold := match_threshold;
    SearchMemories.p_count := count;
    SearchMemories.p_unique := unique
  |}.

(** [getMemoriesByRoomIds] (lines 271-278). *)
Definition getMemoriesByRoomIds (params : RoomIds.Options) : W -> Result (list Memory) * W :=
  DatabaseQueries.getMemoriesByRoomIds adapter {|
    RoomIds.p_tableName := tableName this;
    RoomIds.p_agentId := RoomIds.agentId params;
    RoomIds.p_roomIds := RoomIds.roomIds params;
    RoomIds.p_limit := RoomIds.limit params
  |}.

(** [removeMemory] (lines 291-296). *)
Definition removeMemory (memoryId : UUID) : W -> Result unit * W :=
  DatabaseQueries.removeMemory adapter memoryId (tableName this).

(** [removeAllMemories] (lines 303-308). *)
Definition removeAllMemories (roomId : UUID) : W -> Result unit * W :=
  DatabaseQueries.removeAllMemories adapter roomId (tableName this).

(** [countMemories] (lines 316-322); [unique] defaults to [true]. *)
Definition countMemories (roomId : UUID) (unique : option bool) : W -> Result number * W :=
  DatabaseQueries.countMemories adapter roomId (default_to true unique) (tableName this).

End Passthrough.

(** The query methods of the in-memory database: a row is addressed by the
    partition it was stored under. *)
Module SimQueries.

Definition in_room (table : string) (room : UUID) (row : Memory * string) : bool :=
  String.eqb (snd row) table && UUID_eqb (roomId (fst row)) room.

Definition select (keep : Memory * string -> bool) (s : Sim.State) : list Memory :=
  map fst (filter keep (Sim.rows s)).

Definition delete (drop : Memory * string -> bool) (s : Sim.State) : Sim.State :=
  Sim.mkState (filter (fun row => negb (drop row)) (Sim.rows s))
              (Sim.clock s) (Sim.unavailable_for s).

Definition adapter : DatabaseQueries.IDatabaseQueries Sim.State := {|
  DatabaseQueries.getMemories := fun p s =>
    (OK (select (in_room (GetMemories.p_tableName p) (GetMemories.p_roomId p)) s), s);
  DatabaseQueries.getCachedEmbeddings := fun _ s => (OK [], s);
  DatabaseQueries.searchMemories := fun p s =>
    (OK (select (in_room (SearchMemories.p_tableName p) (SearchMemories.p_roomId p)) s), s);
  DatabaseQueries.getMemoriesByRoomIds := fun p s =>
    (OK (select (fun row => existsb (fun room => in_room (RoomIds.p_tableName p) room row)
                                    (RoomIds.p_roomIds p)) s), s);
  DatabaseQueries.removeMemory := fun memoryId table s =>
    (OK tt, delete (fun row => String.eqb (snd row) table
                               && UUID_eqb (id (fst row)) memoryId) s);
  DatabaseQueries.removeAllMemories := fun room table s =>
    (OK tt, delete (in_room table room) s);
  DatabaseQueries.countMemories := fun room _ table s =>
    (OK (PrimFloat.of_uint63
           (Uint63.of_nat (length (select (in_room table room) s)))), s)
|}.

End SimQueries.

(* ===================================================================== *)
(** * Vocabulary of the further properties *)
(* ===================================================================== *)

(** A metadata value of the shape the type declaration describes: a type of
    the closed set, and every other field either left out or of its
    declared kind. *)
Definition is_string (v : JSValue) : bool :=
  match v with
  | JSString _ => true
  | _ => false
  end.

Definition is_number (v : JSValue) : bool :=
  match v with
  | JSNumber _ => true
  | _ => false
  end.

Definition is_string_array (v : JSValue) : bool :=
  match v with
  | JSArray items => forallb is_string items
  | _ => false
  end.

Definition optional (kind : JSValue -> bool) (v : JSValue) : bool :=
  is_undefined v || kind v.

Definition conforms (md : KnowledgeMetadata) : bool :=
  includes ["document"; "fragment"; "message"; "fact"] (type md)
  && optional is_string (sourceId md)
  && optional is_number (chunkIndex md)
  && optional is_string (source md)
  && optional (includes ["shared"; "private"; "room"]) (scope md)
  && optional is_string_array (tags md)
  && optional is_number (timestamp md).

(** How often the clock was read, and how often the Store was asked for a
    record by id. *)
Definition clock_reads (cs : list Call) : nat :=
  length (filter (fun c => match c with Call_Date_now => true | _ => false end) cs).

Definition lookups (cs : list Call) : list UUID :=
  flat_map (fun c => match c with
                     | Call_getMemoryById id => [id]
                     | _ => []
                     end) cs.

(** Further records and runs. *)
Module Scenarios.

(** No text at all, no embedding. *)
Definition blank : Memory :=
  mkMemory Examples.m1_id (Some Examples.a1) Examples.r1 (mkContent None None) None.

(** [{type: invalid}] *)
Definition invalid_type : KnowledgeMetadata := Examples.bare "invalid".

(** A database whose embedding model is down for every input the manager
    could send for [hello]: the text fails, and so would any other text. *)
Definition a2_manager : MemoryManager Sim.State := Sim.manager (Some Examples.a2) "knowledge".

(** A manager for a partition of its own, outside the three the types
    route to. *)
Definition notes_manager : MemoryManager Sim.State := Sim.manager (Some Examples.a1) "notes".

Definition notes_create : Result unit * Memory * World Sim.State :=
  createMemory Sim.Date_now notes_manager Examples.hello true (fresh Examples.empty_db).

Definition embedded_create : Result unit * Memory * World Sim.State :=
  createMemory Sim.Date_now Examples.knowledge_manager Examples.hello_embedded false
               (fresh Examples.empty_db).

Definition ensured : Result Memory * Memory * World Sim.State :=
  addEmbeddingToMemory Examples.knowledge_manager Examples.hello (fresh Examples.empty_db).

Definition found : Result (option Memory) * World Sim.State :=
  getMemoryById Examples.knowledge_manager Examples.m1_id
                (fresh (Examples.db_with Examples.hello)).

(** A runtime whose embedding model throws on every input, null included. *)
Definition model_error : Exception := Error "embedding model crashed".

Definition crashed_model_manager : MemoryManager Sim.State := {|
  runtime := {|
    Runtime.agentId := Some Examples.a1;
    Runtime.useModel := fun _ s => (Throw model_error, s);
    Runtime.databaseAdapter := Sim.adapter
  |};
  tableName := "knowledge"
|}.

Definition crashed_model_create : Result unit * Memory * World Sim.State :=
  createMemory Sim.Date_now crashed_model_manager Examples.hello false
               (fresh Examples.empty_db).

(** A runtime whose database cannot be reached. *)
Definition store_error : Exception := Error "database unavailable".

Definition offline_manager : MemoryManager Sim.State := {|
  runtime := {|
    Runtime.agentId := Some Examples.a1;
    Runtime.useModel := Sim.embed;
    Runtime.databaseAdapter := {|
      DatabaseAdapter.getMemoryById := fun _ s => (Throw store_error, s);
      DatabaseAdapter.createMemory := fun _ _ _ s => (Throw store_error, s)
    |}
  |};
  tableName := "knowledge"
|}.

End Scenarios.
(* ===================================================================== *)
(** * Basic facts *)
(* ===================================================================== *)

Unset Implicit Arguments.

Lemma UUID_eqb_eq (a b : UUID) : UUID_eqb a b = true <-> a = b.
Proof.
  destruct a as [ha ta], b as [hb tb]; unfold UUID_eqb; simpl.
  rewrite andb_true_iff, Ascii.eqb_eq, String.eqb_eq.
  split.
  - intros [-> ->]; reflexivity.
  - intros E; inversion E; auto.
Qed.

Lemma strict_eq_true (a b : option UUID) : strict_eq a b = true <-> a = b.
Proof.
  destruct a as [x|], b as [y|]; simpl; try (split; [discriminate | congruence]).
  - rewrite UUID_eqb_eq. split; congruence.
  - split; reflexivity.
Qed.

Lemma strict_eq_false (a b : option UUID) : strict_eq a b = false <-> a <> b.
Proof.
  rewrite <- strict_eq_true. destruct (strict_eq a b); split; congruence.
Qed.

(** An identifier is never the empty string, so it is truthy exactly when
    it is there. *)
Lemma truthy_uuid_value (u : option UUID) :
  truthy (uuid_value u) = match u with Some _ => true | None => false end.
Proof. destruct u; reflexivity. Qed.

Lemma truthy_text_value (t : option string) :
  truthy (text_value t) = true <-> exists s, t = Some s /\ s <> EmptyString.
Proof.
  destruct t as [s|]; simpl.
  - unfold truthy; simpl. rewrite negb_true_iff. split.
    + intros E. exists s. split; [reflexivity|].
      apply String.eqb_neq; exact E.
    + intros (s' & E & N). inversion E; subst. apply String.eqb_neq; exact N.
  - split; [discriminate|]. intros (s & E & _); discriminate.
Qed.

Section Lookup.
Context {W : Type} (this : MemoryManager W).

(** What [getMemoryById] answers once the Store has found a record. *)
Lemma getMemoryById_found id w record x1 :
  DatabaseAdapter.getMemoryById (Runtime.databaseAdapter (runtime this)) id (ext w)
    = (OK (Some record), x1) ->
  getMemoryById this id w
    = (if strict_eq (agentId record) (Runtime.agentId (runtime this))
       then OK (Some record) else OK None,
       mkWorld x1 (calls w ++ [Call_getMemoryById id])).
Proof.
  intros H. unfold getMemoryById, perform. rewrite H.
  destruct (strict_eq (agentId record) (Runtime.agentId (runtime this))); reflexivity.
Qed.

End Lookup.

(* ===================================================================== *)
(** * The metadata validator *)
(* ===================================================================== *)

Lemma typeof_string_eqb (v : JSValue) (s : string) :
  (typeof v =? s) = false <-> typeof v <> s.
Proof. apply String.eqb_neq. Qed.

Lemma is_undefined_false (v : JSValue) : is_undefined v = false <-> v <> JSUndefined.
Proof. destruct v; simpl; split; congruence. Qed.

(** The type test alone: a falsy type is outside the closed set anyway. *)
Lemma type_test (v : JSValue) :
  negb (truthy v) || negb (includes ["document"; "fragment"; "message"; "fact"] v)
  = negb (includes ["document"; "fragment"; "message"; "fact"] v).
Proof.
  destruct (includes _ v) eqn:I; simpl.
  - destruct v; simpl in I; try discriminate.
    unfold truthy; simpl.
    destruct (s =? EmptyString) eqn:E; [|reflexivity].
    apply String.eqb_eq in E; subst; discriminate.
  - apply orb_true_r.
Qed.

Lemma is_undefined_true (v : JSValue) : is_undefined v = true <-> v = JSUndefined.
Proof. destruct v; simpl; split; congruence. Qed.

(** Turns the boolean tests of the validator into the propositions they
    decide. *)
Ltac reflect_tests :=
  repeat match goal with
         | H : _ && _ = true |- _ => apply andb_true_iff in H; destruct H
         | H : _ && _ = false |- _ => apply andb_false_iff in H; destruct H
         | H : negb _ = true |- _ => apply negb_true_iff in H
         | H : negb _ = false |- _ => apply negb_false_iff in H
         | H : (_ =? _) = true |- _ => apply String.eqb_eq in H
         | H : (_ =? _) = false |- _ => apply String.eqb_neq in H
         | H : is_undefined _ = true |- _ => apply is_undefined_true in H
         | H : is_undefined _ = false |- _ => apply is_undefined_false in H
         end.

(** C3, as the code has it.  The validator throws exactly when the type is
    outside document, fragment, message, fact; or sourceId is truthy and not
    a string; or chunkIndex is not undefined and not a number; or source is
    truthy and not a string; or scope is truthy and outside shared, private,
    room; or tags is truthy and not an array.  In every other case it
    returns, and being a function of its argument it does nothing else. *)
Theorem validateMetadata_throws_iff_rejected (md : KnowledgeMetadata) :
  ((exists e, validateMetadata md = Throw e) <-> rejected md)
  /\ (validateMetadata md = OK tt <-> ~ rejected md).
Proof.
  assert (D : (validateMetadata md = OK tt /\ ~ rejected md)
              \/ ((exists e, validateMetadata md = Throw e) /\ rejected md)).
  { unfold validateMetadata, rejected. rewrite type_test.
    repeat match goal with
           | |- context [if ?b then _ else _] => destruct b eqn:?
           end;
      reflect_tests;
      first [ right; split; [eexists; reflexivity | tauto]
            | left; split; [reflexivity | intuition congruence] ]. }
  destruct D as [[E N] | [[e E] R]]; rewrite E.
  - split; split; try tauto.
    intros [e' E']; discriminate.
  - split; split; try tauto; try discriminate.
    exists e; reflexivity.
Qed.

(** C3, as worded, fails: a source that is there and is the number 0 meets
    the listed condition on source, and the validator returns without
    throwing. *)
Lemma validateMetadata_accepts_numeric_source :
  ~ ((exists e, validateMetadata Examples.fact_with_numeric_source = Throw e)
     <-> listed_condition Examples.fact_with_numeric_source = true).
Proof.
  intros [_ H]. destruct H as [e E]; [reflexivity|].
  vm_compute in E. discriminate E.
Qed.

(* ===================================================================== *)
(** * The embedding ensurer *)
(* ===================================================================== *)

Section Ensurer.
Context {W : Type} (this : MemoryManager W).

(** C9.  A memory whose embedding is set comes back as it went in: the
    result is the memory, the object is not modified, and the world is the
    one before the call, so no Embedder call (no call at all) was made. *)
Theorem addEmbeddingToMemory_keeps_existing_embedding (memory : Memory) (w : World W) :
  embedding memory <> None ->
  addEmbeddingToMemory this memory w = (OK memory, memory, w).
Proof.
  intros H. unfold addEmbeddingToMemory, addEmbeddingToMemory_body, bind, read.
  destruct (embedding memory) as [v|]; [reflexivity | congruence].
Qed.

(** C8.  For a memory with no embedding and non-empty text whose Embedder
    call on the text throws [e]: the failure is logged and the Embedder is
    invoked once more, with null, and with nothing else; when that call
    answers with the fallback vector [v], as the contract of the Embedder
    has it, the ensurer returns the memory carrying [v] and no error reaches
    the caller. *)
Theorem addEmbeddingToMemory_falls_back_on_null
    (memory : Memory) (s : string) (x x1 : W) (e : Exception) :
  embedding memory = None ->
  text (content memory) = Some s ->
  s <> EmptyString ->
  Runtime.useModel (runtime this) (JSString s) x = (Throw e, x1) ->
  calls (snd (addEmbeddingToMemory this memory (fresh x)))
    = [Call_useModel (JSString s);
       Call_logger_error "Failed to generate embedding:" e;
       Call_useModel JSNull]
  /\ forall v x2,
       Runtime.useModel (runtime this) JSNull x1 = (OK v, x2) ->
       addEmbeddingToMemory this memory (fresh x)
         = (OK (set_embedding (Some v) memory),
            set_embedding (Some v) memory,
            mkWorld x2 [Call_useModel (JSString s);
                        Call_logger_error "Failed to generate embedding:" e;
                        Call_useModel JSNull]).
Proof.
  intros HE HT HS HU.
  assert (T : truthy (text_value (text (content memory))) = true).
  { apply truthy_text_value. exists s. split; assumption. }
  unfold addEmbeddingToMemory, addEmbeddingToMemory_body, bind, read, try_catch,
    useModel, logger, call, perform, assign, ret, throw, fresh.
  rewrite HE, T, HT. cbn. rewrite HU. cbn.
  split.
  - destruct (Runtime.useModel (runtime this) JSNull x1) as [[v|e'] x2]; reflexivity.
  - intros v x2 H2. rewrite H2. reflexivity.
Qed.

End Ensurer.

Lemma addEmbeddingToMemory_keeps_existing_embedding_witness :
  addEmbeddingToMemory Examples.knowledge_manager Examples.hello_embedded
                       (Sim.start Examples.model_down)
  = (OK Examples.hello_embedded, Examples.hello_embedded, Sim.start Examples.model_down).
Proof.
  apply (addEmbeddingToMemory_keeps_existing_embedding
           Examples.knowledge_manager Examples.hello_embedded
           (Sim.start Examples.model_down)).
  simpl. discriminate.
Defined.

Lemma addEmbeddingToMemory_falls_back_on_null_witness :
  addEmbeddingToMemory Examples.knowledge_manager Examples.hello (fresh Examples.model_down)
  = (OK (set_embedding (Some Sim.zero_vector) Examples.hello),
     set_embedding (Some Sim.zero_vector) Examples.hello,
     mkWorld Examples.model_down
             [Call_useModel (JSString "hello");
              Call_logger_error "Failed to generate embedding:"
                                (Error "embedding model unavailable");
              Call_useModel JSNull]).
Proof.
  refine (proj2 (@addEmbeddingToMemory_falls_back_on_null
                   Sim.State Examples.knowledge_manager Examples.hello "hello"
                   Examples.model_down Examples.model_down
                   (Error "embedding model unavailable") _ _ _ _)
                Sim.zero_vector Examples.model_down _);
    try reflexivity.
  discriminate.
Defined.

(* ===================================================================== *)
(** * Fetch by id *)
(* ===================================================================== *)

Section Ownership.
Context {W : Type} (this : MemoryManager W).

(** C5.  When the Store holds a record under the id: if the record's agentId
    differs from the runtime's own agentId, the manager answers null; if it
    equals it, the manager answers the record as the Store gave it. *)
Theorem getMemoryById_ownership_filter (id : UUID) (w : World W)
    (record : Memory) (x1 : W) :
  DatabaseAdapter.getMemoryById (Runtime.databaseAdapter (runtime this)) id (ext w)
    = (OK (Some record), x1) ->
  (agentId record <> Runtime.agentId (runtime this) ->
     fst (getMemoryById this id w) = OK None)
  /\ (agentId record = Runtime.agentId (runtime this) ->
        fst (getMemoryById this id w) = OK (Some record)).
Proof.
  intros H. erewrite getMemoryById_found by exact H. simpl. split; intros A.
  - apply strict_eq_false in A. rewrite A. reflexivity.
  - apply strict_eq_true in A. rewrite A. reflexivity.
Qed.

(** C10.  A stored record with no agentId is never returned to a runtime
    that has an agent identity: undefined is not strictly equal to it. *)
Theorem getMemoryById_hides_shared_records (id : UUID) (w : World W)
    (record : Memory) (x1 : W) (me : UUID) :
  DatabaseAdapter.getMemoryById (Runtime.databaseAdapter (runtime this)) id (ext w)
    = (OK (Some record), x1) ->
  agentId record = None ->
  Runtime.agentId (runtime this) = Some me ->
  fst (getMemoryById this id w) = OK None.
Proof.
  intros H A R. erewrite getMemoryById_found by exact H. rewrite A, R. reflexivity.
Qed.

End Ownership.

Lemma getMemoryById_ownership_filter_witness :
  fst (getMemoryById (Sim.manager (Some Examples.a2) "messages") Examples.m1_id
                     (Sim.start (Examples.db_with Examples.hello)))
    = OK None
  /\ fst (getMemoryById (Sim.manager (Some Examples.a1) "messages") Examples.m1_id
                        (Sim.start (Examples.db_with Examples.hello)))
       = OK (Some Examples.hello).
Proof.
  split.
  - apply (proj1 (@getMemoryById_ownership_filter
                    Sim.State (Sim.manager (Some Examples.a2) "messages") Examples.m1_id
                    (Sim.start (Examples.db_with Examples.hello))
                    Examples.hello (Examples.db_with Examples.hello) eq_refl)).
    simpl. discriminate.
  - apply (proj2 (@getMemoryById_ownership_filter
                    Sim.State (Sim.manager (Some Examples.a1) "messages") Examples.m1_id
                    (Sim.start (Examples.db_with Examples.hello))
                    Examples.hello (Examples.db_with Examples.hello) eq_refl)).
    reflexivity.
Defined.

Lemma getMemoryById_hides_shared_records_witness :
  fst (getMemoryById (Sim.manager (Some Examples.a1) "messages") Examples.m1_id
                     (Sim.start (Examples.db_with Examples.shared_note)))
    = OK None.
Proof.
  apply (@getMemoryById_hides_shared_records
           Sim.State (Sim.manager (Some Examples.a1) "messages") Examples.m1_id
           (Sim.start (Examples.db_with Examples.shared_note))
           Examples.shared_note (Examples.db_with Examples.shared_note) Examples.a1);
    reflexivity.
Defined.

(* ===================================================================== *)
(** * The creation workflow, step by step *)
(* ===================================================================== *)

Lemma flat_map_snoc {A B : Type} (f : A -> list B) (l : list A) (a : A) :
  flat_map f (l ++ [a]) = (flat_map f l ++ f a)%list.
Proof. rewrite flat_map_app. simpl. rewrite app_nil_r. reflexivity. Qed.

Lemma set_metadata_twice (a b : option KnowledgeMetadata) (memory : Memory) :
  set_metadata b (set_metadata a memory) = set_metadata b memory.
Proof. reflexivity. Qed.

(** The metadata of step 2 always passes the validator. *)
Lemma validateMetadata_synthesized (partition : string) (memory : Memory) (t : number) :
  validateMetadata (synthesized partition memory t) = OK tt.
Proof.
  unfold validateMetadata, synthesized, default_scope; simpl.
  destruct (partition =? "knowledge"), (agentId memory);
    simpl; unfold truthy; simpl; destruct (partition =? EmptyString); reflexivity.
Qed.

(** Step 3 leaves the metadata of step 2 as it is, up to a second reading
    of the clock when the first one is falsy. *)
Lemma backfilled_synthesized (partition : string) (memory : Memory) (t t' : number) :
  backfilled partition memory t' (synthesized partition memory t)
  = synthesized partition memory (if truthy (JSNumber t) then t else t').
Proof.
  unfold backfilled, synthesized, default_scope; simpl.
  f_equal.
  - destruct (truthy (JSString partition)); reflexivity.
  - destruct (agentId memory); reflexivity.
  - destruct (truthy (JSNumber t)); reflexivity.
Qed.

Lemma backfilled_set_metadata partition a memory t md :
  backfilled partition (set_metadata a memory) t md = backfilled partition memory t md.
Proof. reflexivity. Qed.

Section Creation.
Context {W : Type} (Date_now : W -> number * W) (this : MemoryManager W).

Local Open Scope mut_scope.

Let lookup := DatabaseAdapter.getMemoryById (Runtime.databaseAdapter (runtime this)).
Let store_create := DatabaseAdapter.createMemory (Runtime.databaseAdapter (runtime this)).
Let embed := Runtime.useModel (runtime this).

(** Step 1 found a record: nothing else happens. *)
Lemma createMemory_duplicate memory unique w existing x1 :
  lookup (id memory) (ext w) = (OK (Some existing), x1) ->
  createMemory Date_now this memory unique w
  = (OK tt, memory,
     mkWorld x1 (calls w ++ [Call_getMemoryById (id memory);
                             Call_logger_debug "Memory already exists, skipping"])).
Proof.
  intros H. unfold createMemory, createMemory_body, bind, read, call, perform, logger.
  fold lookup. rewrite H. cbn. rewrite <- app_assoc. reflexivity.
Qed.

(** Step 1 found nothing: steps 2 and 3 run, and when they return the rest
    runs on the object they leave. *)
Lemma createMemory_new memory unique w x1 :
  lookup (id memory) (ext w) = (OK None, x1) ->
  createMemory Date_now this memory unique w
  = match (initMetadata Date_now this ;; handleMetadata Date_now this)
            memory (mkWorld x1 (calls w ++ [Call_getMemoryById (id memory)])) with
    | (OK _, memory2, w2) =>
        (logCreating ;; fillEmbedding this ;; persist this unique) memory2 w2
    | (Throw e, memory2, w2) => (Throw e, memory2, w2)
    end.
Proof.
  intros H. unfold createMemory, createMemory_body, bind at 1 2, read, call, perform.
  fold lookup. rewrite H. cbn -[initMetadata handleMetadata bind].
  unfold bind.
  destruct (initMetadata Date_now this memory _) as [[[[]|e] m1] w1]; [|reflexivity].
  destruct (handleMetadata Date_now this m1 w1) as [[[[]|e] m2] w2]; reflexivity.
Qed.

Lemma createMemory_lookup_fails memory unique w e x1 :
  lookup (id memory) (ext w) = (Throw e, x1) ->
  createMemory Date_now this memory unique w
  = (Throw e, memory, mkWorld x1 (calls w ++ [Call_getMemoryById (id memory)])).
Proof.
  intros H. unfold createMemory, createMemory_body, bind, read, call, perform.
  fold lookup. rewrite H. reflexivity.
Qed.

(** Step 2. *)
Lemma initMetadata_absent memory w :
  metadata (content memory) = None ->
  initMetadata Date_now this memory w
  = (OK tt,
     set_metadata (Some (synthesized (tableName this) memory (fst (Date_now (ext w))))) memory,
     mkWorld (snd (Date_now (ext w))) (calls w ++ [Call_Date_now])).
Proof.
  intros H. unfold initMetadata, bind, read, now, call, perform, assign.
  rewrite H. cbn. destruct (Date_now (ext w)) as [t x2]. cbn.
  unfold synthesized, default_scope. rewrite truthy_uuid_value.
  destruct (agentId memory); reflexivity.
Qed.

Lemma initMetadata_present memory w md :
  metadata (content memory) = Some md ->
  initMetadata Date_now this memory w = (OK tt, memory, w).
Proof.
  intros H. unfold initMetadata, bind, read. rewrite H. reflexivity.
Qed.

(** Step 3. *)
Lemma handleMetadata_invalid memory w md e :
  metadata (content memory) = Some md ->
  validateMetadata md = Throw e ->
  handleMetadata Date_now this memory w = (Throw e, memory, w).
Proof.
  intros H V. unfold handleMetadata, the_metadata, bind, read, check.
  repeat (cbn -[validateMetadata]; rewrite ?H). rewrite V. reflexivity.
Qed.

Lemma handleMetadata_valid memory w md :
  metadata (content memory) = Some md ->
  validateMetadata md = OK tt ->
  handleMetadata Date_now this memory w
  = (OK tt,
     set_metadata (Some (backfilled (tableName this) memory (fst (Date_now (ext w))) md)) memory,
     if truthy (timestamp md) then w
     else mkWorld (snd (Date_now (ext w))) (calls w ++ [Call_Date_now])).
Proof.
  intros H V. destruct memory as [i a r [t m] emb]. simpl in H. subst m.
  destruct md as [ty sid ci so sc tg ts].
  unfold handleMetadata, the_metadata, bind, read, check, now, call, perform,
    assign, ret, update_metadata, backfilled, default_scope.
  destruct (Date_now (ext w)) as [t1 x2] eqn:EN.
  destruct (truthy ts) eqn:Ets, (truthy sc) eqn:Esc, (truthy so) eqn:Eso, a;
    repeat (cbn -[validateMetadata]; rewrite ?V, ?Ets, ?Esc, ?Eso, ?EN);
    reflexivity.
Qed.

(** Steps 4 to 6, on an object that has its metadata. *)
Lemma rest_run memory md unique x cs :
  metadata (content memory) = Some md ->
  (logCreating ;; fillEmbedding this ;; persist this unique) memory (mkWorld x cs)
  = let cs1 := (cs ++ [Call_logger_log "Creating Memory" (id memory)
                                       (text (content memory))])%list in
    let table := getTableNameForType this (type md) in
    match embedding memory with
    | Some _ =>
        (fst (store_create memory table unique x), memory,
         mkWorld (snd (store_create memory table unique x))
                 (cs1 ++ [Call_createMemory memory table unique]))
    | None =>
        match embed JSNull x with
        | (OK v, x2) =>
            let memory2 := set_embedding (Some v) memory in
            (fst (store_create memory2 table unique x2), memory2,
             mkWorld (snd (store_create memory2 table unique x2))
                     ((cs1 ++ [Call_useModel JSNull])
                        ++ [Call_createMemory memory2 table unique]))
        | (Throw e, x2) =>
            (Throw e, memory, mkWorld x2 (cs1 ++ [Call_useModel JSNull]))
        end
    end.
Proof.
  intros H. destruct memory as [i a r [t m] emb]. simpl in H. subst m.
  unfold logCreating, fillEmbedding, persist, the_metadata, useModel, logger,
    bind, read, call, perform, assign, ret, store_create, embed.
  destruct emb as [v0|]; cbn.
  - destruct (DatabaseAdapter.createMemory _ _ _ _ x) as [r0 x']. reflexivity.
  - destruct (Runtime.useModel (runtime this) JSNull x) as [[v|e] x2]; cbn;
      [|reflexivity].
    destruct (DatabaseAdapter.createMemory _ _ _ _ x2) as [r0 x']. reflexivity.
Qed.

(** Steps 2 and 3 add clock readings to the trace and nothing else, leave
    the embedding alone, and return only on an object with metadata. *)
Lemma prepare_frame memory w r memory2 w2 :
  (initMetadata Date_now this ;; handleMetadata Date_now this) memory w
    = (r, memory2, w2) ->
  embedding memory2 = embedding memory
  /\ id memory2 = id memory
  /\ (exists n, calls w2 = (calls w ++ repeat Call_Date_now n)%list)
  /\ (r = OK tt -> exists md2, metadata (content memory2) = Some md2).
Proof.
  unfold bind at 1.
  destruct (metadata (content memory)) as [md|] eqn:M.
  - erewrite initMetadata_present by exact M.
    destruct (validateMetadata md) as [[]|e] eqn:V.
    + erewrite handleMetadata_valid by eassumption. intros E; inversion E; subst; clear E.
      split; [reflexivity|]. split; [reflexivity|]. split.
      * destruct (truthy (timestamp md)).
        -- exists 0. cbn. rewrite app_nil_r. reflexivity.
        -- exists 1. reflexivity.
      * intros _. eexists. reflexivity.
    + erewrite handleMetadata_invalid by eassumption. intros E; inversion E; subst; clear E.
      split; [reflexivity|]. split; [reflexivity|]. split.
      * exists 0. cbn. rewrite app_nil_r. reflexivity.
      * discriminate.
  - erewrite initMetadata_absent by exact M.
    erewrite handleMetadata_valid
      by (try reflexivity; apply validateMetadata_synthesized).
    intros E; inversion E; subst; clear E.
    split; [reflexivity|]. split; [reflexivity|]. split.
    + cbn [timestamp synthesized calls].
      destruct (truthy (JSNumber _)).
      * exists 1. reflexivity.
      * exists 2. cbn. rewrite <- app_assoc. reflexivity.
    + intros _. eexists. reflexivity.
Qed.

(** What steps 4 to 6 add to the trace: at most one record handed to the
    Store, which is the object as the call leaves it, under the partition
    of its metadata type. *)
Lemma rest_created memory md unique x cs r memory' w' :
  metadata (content memory) = Some md ->
  (logCreating ;; fillEmbedding this ;; persist this unique) memory (mkWorld x cs)
    = (r, memory', w') ->
  metadata (content memory') = Some md
  /\ exists new,
       calls w' = (cs ++ new)%list
       /\ (forall entry, In entry (created new) ->
              entry = (memory', getTableNameForType this (type md), unique))
       /\ (r = OK tt ->
              created new = [(memory', getTableNameForType this (type md), unique)]).
Proof.
  intros M E. erewrite rest_run in E by exact M. cbv zeta in E.
  destruct (embedding memory) as [v0|] eqn:EM.
  - inversion E; subst; clear E. split; [exact M|].
    eexists. split; [rewrite <- app_assoc; reflexivity|].
    cbn. split; [intros entry [<-|[]]; reflexivity | reflexivity].
  - destruct (embed JSNull x) as [[v|e] x2].
    + inversion E; subst; clear E. split; [exact M|].
      eexists. split; [rewrite <- !app_assoc; reflexivity|].
      cbn. split; [intros entry [<-|[]]; reflexivity | reflexivity].
    + inversion E; subst; clear E. split; [exact M|].
      eexists. split; [rewrite <- app_assoc; reflexivity|].
      cbn. split; [intros entry [] | discriminate].
Qed.

(** What steps 4 to 6 ask of the Embedder when the object has no embedding:
    one call, with null; the object gets what that call returned. *)
Lemma rest_embedding memory md unique x cs r memory' w' :
  metadata (content memory) = Some md ->
  embedding memory = None ->
  (logCreating ;; fillEmbedding this ;; persist this unique) memory (mkWorld x cs)
    = (r, memory', w') ->
  exists new,
    calls w' = (cs ++ new)%list
    /\ embedder_inputs new = [JSNull]
    /\ (created new <> [] ->
          exists v x2, embed JSNull x = (OK v, x2) /\ embedding memory' = Some v).
Proof.
  intros M EM E. erewrite rest_run in E by exact M. cbv zeta in E.
  rewrite EM in E.
  destruct (embed JSNull x) as [[v|e] x2].
  - inversion E; subst; clear E.
    eexists. split; [rewrite <- !app_assoc; reflexivity|].
    cbn. split; [reflexivity|]. intros _. exists v, x2. split; reflexivity.
  - inversion E; subst; clear E.
    eexists. split; [rewrite <- app_assoc; reflexivity|].
    cbn. split; [reflexivity|]. intros N. contradiction N. reflexivity.
Qed.

Lemma created_clock_reads n : created (repeat Call_Date_now n) = [].
Proof. induction n; simpl; auto. Qed.

Lemma embedder_inputs_clock_reads n : embedder_inputs (repeat Call_Date_now n) = [].
Proof. induction n; simpl; auto. Qed.

(** The trace of a whole call, split at the end of step 3. *)
Lemma createMemory_trace memory unique x r memory' w' :
  createMemory Date_now this memory unique (fresh x) = (r, memory', w') ->
  (created (calls w') = [] /\ embedder_inputs (calls w') = [])
  \/ exists x1 memory2 w2 n,
       lookup (id memory) x = (OK None, x1)
       /\ (initMetadata Date_now this ;; handleMetadata Date_now this)
            memory (mkWorld x1 [Call_getMemoryById (id memory)])
          = (OK tt, memory2, w2)
       /\ calls w2 = (Call_getMemoryById (id memory) :: repeat Call_Date_now n)%list
       /\ (logCreating ;; fillEmbedding this ;; persist this unique) memory2 w2
          = (r, memory', w').
Proof.
  intros E. destruct (lookup (id memory) x) as [[[existing|]|e] x1] eqn:L.
  - left. erewrite createMemory_duplicate in E by exact L.
    inversion E; subst; clear E. split; reflexivity.
  - erewrite createMemory_new in E by exact L. cbn [fresh calls app] in E.
    destruct ((initMetadata Date_now this ;; handleMetadata Date_now this) memory _)
      as [[[[]|e] memory2] w2] eqn:P.
    + right. exists x1, memory2, w2.
      destruct (prepare_frame _ _ _ _ _ P) as (_ & _ & [n N] & _).
      exists n. repeat split; assumption.
    + left. destruct (prepare_frame _ _ _ _ _ P) as (_ & _ & [n N] & _).
      inversion E; subst; clear E. rewrite N. cbn.
      rewrite created_clock_reads, embedder_inputs_clock_reads. split; reflexivity.
  - left. erewrite createMemory_lookup_fails in E by exact L.
    inversion E; subst; clear E. split; reflexivity.
Qed.

(** Steps 2 and 3 on metadata the caller supplied and the validator accepts. *)
Lemma prepare_present memory md w :
  metadata (content memory) = Some md ->
  validateMetadata md = OK tt ->
  fst ((initMetadata Date_now this ;; handleMetadata Date_now this) memory w)
  = (OK tt,
     set_metadata (Some (backfilled (tableName this) memory (fst (Date_now (ext w))) md))
                  memory).
Proof.
  intros M V. unfold bind.
  erewrite initMetadata_present by exact M.
  erewrite handleMetadata_valid by eassumption. reflexivity.
Qed.

(** Steps 2 and 3 on a memory without metadata. *)
Lemma prepare_absent memory w :
  metadata (content memory) = None ->
  fst ((initMetadata Date_now this ;; handleMetadata Date_now this) memory w)
  = (OK tt,
     set_metadata
       (Some (synthesized (tableName this) memory
                (if truthy (JSNumber (fst (Date_now (ext w))))
                 then fst (Date_now (ext w))
                 else fst (Date_now (snd (Date_now (ext w)))))))
       memory).
Proof.
  intros M. unfold bind.
  erewrite initMetadata_absent by exact M.
  erewrite handleMetadata_valid
    by (try reflexivity; apply validateMetadata_synthesized).
  cbn [fst ext].
  rewrite backfilled_set_metadata, backfilled_synthesized, set_metadata_twice.
  reflexivity.
Qed.

(** A call that passes step 1 and whose steps 2 and 3 leave [memory2]:
    the object keeps the metadata of [memory2] to the end, and nothing but
    the object itself is handed to the Store. *)
Lemma createMemory_new_outcome memory unique x x1 r memory' w' memory2 md2 :
  lookup (id memory) x = (OK None, x1) ->
  createMemory Date_now this memory unique (fresh x) = (r, memory', w') ->
  fst ((initMetadata Date_now this ;; handleMetadata Date_now this)
         memory (mkWorld x1 [Call_getMemoryById (id memory)]))
    = (OK tt, memory2) ->
  metadata (content memory2) = Some md2 ->
  metadata (content memory') = Some md2
  /\ forall entry, In entry (created (calls w')) ->
                   entry = (memory', getTableNameForType this (type md2), unique).
Proof.
  intros L E P M2.
  erewrite createMemory_new in E by exact L. cbn [fresh calls ext app] in E.
  destruct ((initMetadata Date_now this ;; handleMetadata Date_now this) memory _)
    as [[r2 memory2'] [x3 cs]] eqn:P'.
  cbn [fst] in P. inversion P; subst r2 memory2'; clear P.
  destruct (prepare_frame _ _ _ _ _ P') as (_ & _ & [n N] & _).
  cbn [calls] in N. subst cs.
  destruct (rest_created _ _ _ _ _ _ _ _ M2 E) as (M' & new & N & C & _).
  split; [exact M'|].
  intros entry I. apply C. rewrite N in I. unfold created in I |- *.
  rewrite !flat_map_app in I. fold (created (repeat Call_Date_now n)) in I.
  rewrite created_clock_reads in I. exact I.
Qed.

(** A call that passes step 1 and returns has handed the Store exactly one
    record: the object as the call leaves it, under the partition of its
    metadata type, with the caller's flag. *)
Lemma createMemory_persists_once memory unique x x1 r memory' w' :
  lookup (id memory) x = (OK None, x1) ->
  createMemory Date_now this memory unique (fresh x) = (r, memory', w') ->
  r = OK tt ->
  exists md,
    metadata (content memory') = Some md
    /\ created (calls w') = [(memory', getTableNameForType this (type md), unique)].
Proof.
  intros L E R.
  erewrite createMemory_new in E by exact L. cbn [fresh calls ext app] in E.
  destruct ((initMetadata Date_now this ;; handleMetadata Date_now this) memory _)
    as [[[[]|e] memory2] [x3 cs]] eqn:P; [|inversion E; congruence].
  destruct (prepare_frame _ _ _ _ _ P) as (_ & _ & [n N] & [md2 M2]); [reflexivity|].
  cbn [calls] in N. subst cs.
  destruct (rest_created _ _ _ _ _ _ _ _ M2 E) as (M' & new & N & _ & K).
  exists md2. split; [exact M'|].
  rewrite N. unfold created in K |- *. rewrite !flat_map_app, (K R).
  fold (created (repeat Call_Date_now n)). rewrite created_clock_reads. reflexivity.
Qed.

(** C2.  When the Store already holds a record under the memory's id, the
    call returns normally whatever the memory holds: the object is left as
    it was, the only calls made are the lookup and a debug log, so no record
    is handed to the Store's create and the Store is in the state its own
    lookup left it in. *)
Theorem createMemory_skips_existing_id memory unique w existing x1 :
  lookup (id memory) (ext w) = (OK (Some existing), x1) ->
  createMemory Date_now this memory unique w
  = (OK tt, memory,
     mkWorld x1 (calls w ++ [Call_getMemoryById (id memory);
                             Call_logger_debug "Memory already exists, skipping"]))
  /\ created (calls (snd (createMemory Date_now this memory unique w)))
     = created (calls w).
Proof.
  intros L. erewrite createMemory_duplicate by exact L. split; [reflexivity|].
  cbn [snd calls]. unfold created. rewrite flat_map_app. cbn. apply app_nil_r.
Qed.

(** C6.  For a memory without metadata that is not a duplicate, step 2
    writes exactly: type document when the manager's partition is knowledge
    and message otherwise, source the partition name, scope private when the
    memory has an agentId and shared otherwise, timestamp the clock reading
    [t] just taken, and no other field.  That metadata is what the object
    and every record handed to the Store carry when the call ends; the
    timestamp is [t], or a second reading when [t] is 0 or NaN. *)
Theorem createMemory_synthesizes_metadata memory unique x x1 r memory' w' :
  metadata (content memory) = None ->
  lookup (id memory) x = (OK None, x1) ->
  createMemory Date_now this memory unique (fresh x) = (r, memory', w') ->
  let t := fst (Date_now x1) in
  let x2 := snd (Date_now x1) in
  let t' := if truthy (JSNumber t) then t else fst (Date_now x2) in
  initMetadata Date_now this memory (mkWorld x1 [Call_getMemoryById (id memory)])
  = (OK tt,
     set_metadata (Some {|
       type := JSString (if tableName this =? "knowledge" then "document" else "message");
       sourceId := JSUndefined;
       chunkIndex := JSUndefined;
       source := JSString (tableName this);
       scope := JSString (match agentId memory with
                          | Some _ => "private"
                          | None => "shared"
                          end);
       tags := JSUndefined;
       timestamp := JSNumber t |}) memory,
     mkWorld x2 [Call_getMemoryById (id memory); Call_Date_now])
  /\ metadata (content memory') = Some (synthesized (tableName this) memory t')
  /\ forall stored table u,
       In (stored, table, u) (created (calls w')) ->
       metadata (content stored) = Some (synthesized (tableName this) memory t').
Proof.
  intros M L E t x2 t'. split.
  - erewrite initMetadata_absent by exact M. reflexivity.
  - pose proof (prepare_absent memory
                  (mkWorld x1 [Call_getMemoryById (id memory)]) M) as P.
    cbn [ext] in P. fold t x2 t' in P.
    destruct (createMemory_new_outcome _ _ _ _ _ _ _ _ _ L E P eq_refl) as [M' C].
    split; [exact M'|].
    intros stored table u I. apply C in I. inversion I; subst. exact M'.
Qed.

(** C4, as the code has it.  For a memory that is not a duplicate and whose
    metadata passes the validator: type, sourceId, chunkIndex and tags are
    left as supplied; timestamp, scope and source are left as supplied when
    truthy, and get the defaults of step 2 when they are absent or otherwise
    falsy (0, NaN, the empty string, null, false).  The object carries that
    metadata when the call ends, and so does every record handed to the
    Store. *)
Theorem createMemory_backfills_falsy_fields memory md unique x x1 r memory' w' :
  metadata (content memory) = Some md ->
  validateMetadata md = OK tt ->
  lookup (id memory) x = (OK None, x1) ->
  createMemory Date_now this memory unique (fresh x) = (r, memory', w') ->
  let md' := {|
    type := type md;
    sourceId := sourceId md;
    chunkIndex := chunkIndex md;
    source := if truthy (source md) then source md else JSString (tableName this);
    scope := if truthy (scope md) then scope md
             else JSString (match agentId memory with
                            | Some _ => "private"
                            | None => "shared"
                            end);
    tags := tags md;
    timestamp := if truthy (timestamp md) then timestamp md
                 else JSNumber (fst (Date_now x1)) |} in
  metadata (content memory') = Some md'
  /\ forall stored table u,
       In (stored, table, u) (created (calls w')) ->
       metadata (content stored) = Some md'.
Proof.
  intros M V L E md'.
  pose proof (prepare_present memory md
                (mkWorld x1 [Call_getMemoryById (id memory)]) M V) as P.
  cbn [ext] in P.
  destruct (createMemory_new_outcome _ _ _ _ _ _ _ _ _ L E P eq_refl) as [M' C].
  split; [exact M'|].
  intros stored table u I. apply C in I. inversion I; subst. exact M'.
Qed.

(** C7.  Every record handed to the Store goes to the partition computed
    from its metadata type alone, and a call that passes step 1 and returns
    has handed over exactly one record, the memory itself.  The partition
    of a type is: knowledge for document and fragment, messages for message,
    facts for fact, and the manager's own partition for any other value. *)
Theorem createMemory_routes_by_type memory unique x r memory' w' :
  createMemory Date_now this memory unique (fresh x) = (r, memory', w') ->
  (forall stored table u,
     In (stored, table, u) (created (calls w')) ->
     exists md, metadata (content stored) = Some md
                /\ table = getTableNameForType this (type md))
  /\ (forall x1,
        lookup (id memory) x = (OK None, x1) ->
        r = OK tt ->
        exists md,
          metadata (content memory') = Some md
          /\ created (calls w')
             = [(memory', getTableNameForType this (type md), unique)])
  /\ getTableNameForType this (JSString "document") = "knowledge"
  /\ getTableNameForType this (JSString "fragment") = "knowledge"
  /\ getTableNameForType this (JSString "message") = "messages"
  /\ getTableNameForType this (JSString "fact") = "facts"
  /\ (forall v,
        ~ In v [JSString "document"; JSString "fragment";
                JSString "message"; JSString "fact"] ->
        getTableNameForType this v = tableName this).
Proof.
  intros E. split; [|split; [|repeat split]].
  2: { intros x1 L R. exact (createMemory_persists_once _ _ _ _ _ _ _ L E R). }
  - intros stored table u I.
    destruct (createMemory_trace _ _ _ _ _ _ E)
      as [[C _] | (x1 & memory2 & w2 & n & L & P & N & R)].
    + rewrite C in I. destruct I.
    + destruct (prepare_frame _ _ _ _ _ P) as (_ & _ & _ & [md2 M2]); [reflexivity|].
      destruct w2 as [x3 cs]. cbn [calls] in N. subst cs.
      destruct (rest_created _ _ _ _ _ _ _ _ M2 R) as (M' & new & N & C & _).
      rewrite N in I. unfold created in I. rewrite flat_map_app in I.
      cbn [flat_map app] in I. fold (created (repeat Call_Date_now n)) in I.
      rewrite created_clock_reads in I. apply C in I. inversion I; subst.
      exists md2. split; [exact M' | reflexivity].
  - intros v N. unfold getTableNameForType. destruct v; try reflexivity.
    destruct (s =? "document") eqn:E1;
      [apply String.eqb_eq in E1; subst; contradiction N; simpl; auto|].
    destruct (s =? "fragment") eqn:E2;
      [apply String.eqb_eq in E2; subst; contradiction N; simpl; auto|].
    destruct (s =? "message") eqn:E3;
      [apply String.eqb_eq in E3; subst; contradiction N; simpl; auto|].
    destruct (s =? "fact") eqn:E4;
      [apply String.eqb_eq in E4; subst; contradiction N; simpl; auto|].
    reflexivity.
Qed.

(** C1, as the code has it.  For a memory without embedding, [createMemory]
    does not run the ensurer: it never invokes the Embedder on a text, only
    on null, and the embedding of a record handed to the Store is what the
    Embedder returned for null.  When the memory is not a duplicate and the
    call returns, there was exactly one such invocation and exactly one
    record was handed over, the object itself. *)
Theorem createMemory_embeds_null_input memory unique x r memory' w' :
  embedding memory = None ->
  createMemory Date_now this memory unique (fresh x) = (r, memory', w') ->
  Forall (fun input => input = JSNull) (embedder_inputs (calls w'))
  /\ (forall stored table u,
        In (stored, table, u) (created (calls w')) ->
        exists v y y', embed JSNull y = (OK v, y') /\ embedding stored = Some v)
  /\ (forall x1,
        lookup (id memory) x = (OK None, x1) ->
        r = OK tt ->
        embedder_inputs (calls w') = [JSNull]
        /\ exists table, created (calls w') = [(memory', table, unique)]).
Proof.
  intros EM E.
  destruct (createMemory_trace _ _ _ _ _ _ E)
    as [[C I] | (x1 & memory2 & w2 & n & L & P & N & R)].
  - rewrite C, I. split; [constructor|]. split; [intros ? ? ? []|].
    intros x1 L R. exfalso.
    destruct (createMemory_persists_once _ _ _ _ _ _ _ L E R) as (md & _ & K).
    rewrite K in C. discriminate C.
  - destruct (prepare_frame _ _ _ _ _ P) as (EM2 & _ & _ & [md2 M2]); [reflexivity|].
    rewrite EM in EM2.
    destruct w2 as [x3 cs]. cbn [calls] in N. subst cs.
    destruct (rest_embedding _ _ _ _ _ _ _ _ M2 EM2 R) as (new & N & I & V).
    destruct (rest_created _ _ _ _ _ _ _ _ M2 R) as (_ & new' & N' & C & K).
    assert (new' = new) by (rewrite N in N'; apply app_inv_head in N'; auto).
    subst new'.
    assert (CI : created (calls w') = created new
                 /\ embedder_inputs (calls w') = embedder_inputs new).
    { rewrite N. unfold created, embedder_inputs. rewrite !flat_map_app.
      cbn [flat_map app].
      fold (created (repeat Call_Date_now n)).
      fold (embedder_inputs (repeat Call_Date_now n)).
      rewrite created_clock_reads, embedder_inputs_clock_reads. split; reflexivity. }
    destruct CI as [-> ->]. rewrite I.
    split; [repeat constructor|]. split.
    + intros stored table u J.
      destruct V as (v & x4 & U & S); [intros Z; rewrite Z in J; destruct J|].
      apply C in J. inversion J; subst. exists v, x3, x4. split; assumption.
    + intros x1' _ ->. split; [reflexivity|]. eexists. apply K. reflexivity.
Qed.

End Creation.

(* ===================================================================== *)
(** * The creation workflow on the simulated runtime *)
(* ===================================================================== *)

(** Whenever the simulated model answers a text, the answer starts with 1. *)
Lemma Sim_embed_text t y v y' :
  Sim.embed (JSString t) y = (OK v, y') ->
  v = [1%float; PrimFloat.of_uint63 (Uint63.of_nat (String.length t)); 0.5%float].
Proof.
  unfold Sim.embed.
  destruct (existsb (String.eqb t) (Sim.unavailable_for y)); intros E;
    inversion E; reflexivity.
Qed.

(** The end-to-end scenario: the stored record gets the synthesized
    metadata and the fallback embedding, in the knowledge partition. *)
Example first_create_stores_one_row :
  fst (fst Examples.first_create) = OK tt
  /\ Sim.rows (ext (snd Examples.first_create))
     = [(set_embedding (Some Sim.zero_vector)
           (set_metadata (Some (synthesized "knowledge" Examples.hello 1000%float))
                         Examples.hello),
         "knowledge")].
Proof. split; reflexivity. Qed.

(** Creating again under the same id leaves the database as it was. *)
Example second_create_changes_nothing :
  fst (fst Examples.second_create) = OK tt
  /\ Sim.rows (ext (snd Examples.second_create))
     = Sim.rows (ext (snd Examples.first_create))
  /\ length (Sim.rows (ext (snd Examples.second_create))) = 1.
Proof. repeat split; reflexivity. Qed.

Lemma createMemory_skips_existing_id_witness :
  Examples.second_create
  = (OK tt,
     mkMemory Examples.m1_id None Examples.r1
              (mkContent (Some "changed") (Some (Examples.bare "fact"))) None,
     mkWorld (ext (snd Examples.first_create))
             [Call_getMemoryById Examples.m1_id;
              Call_logger_debug "Memory already exists, skipping"]).
Proof.
  apply (proj1 (@createMemory_skips_existing_id
                  Sim.State Sim.Date_now Examples.knowledge_manager
                  (mkMemory Examples.m1_id None Examples.r1
                     (mkContent (Some "changed") (Some (Examples.bare "fact"))) None)
                  true (fresh (ext (snd Examples.first_create)))
                  (snd (fst Examples.first_create))
                  (ext (snd Examples.first_create))
                  eq_refl)).
Defined.

Lemma createMemory_synthesizes_metadata_witness :
  metadata (content (snd (fst Examples.first_create)))
  = Some {| type := JSString "document";
            sourceId := JSUndefined;
            chunkIndex := JSUndefined;
            source := JSString "knowledge";
            scope := JSString "private";
            tags := JSUndefined;
            timestamp := JSNumber 1000%float |}.
Proof.
  apply (proj1 (proj2 (@createMemory_synthesizes_metadata
                         Sim.State Sim.Date_now Examples.knowledge_manager
                         Examples.hello false Examples.empty_db Examples.empty_db
                         (fst (fst Examples.first_create))
                         (snd (fst Examples.first_create))
                         (snd Examples.first_create)
                         eq_refl eq_refl eq_refl))).
Defined.

Lemma createMemory_backfills_falsy_fields_witness :
  metadata (content (snd (fst Examples.fact_create)))
  = Some {| type := JSString "fact";
            sourceId := JSUndefined;
            chunkIndex := JSUndefined;
            source := JSString "messages";
            scope := JSString "private";
            tags := JSArray [JSString "a"];
            timestamp := JSNumber 1000%float |}.
Proof.
  apply (proj1 (@createMemory_backfills_falsy_fields
                  Sim.State Sim.Date_now Examples.messages_manager
                  (Examples.with_metadata Examples.tagged_fact) Examples.tagged_fact
                  false Examples.empty_db Examples.empty_db
                  (fst (fst Examples.fact_create))
                  (snd (fst Examples.fact_create))
                  (snd Examples.fact_create)
                  eq_refl eq_refl eq_refl eq_refl)).
Defined.

Lemma createMemory_routes_by_type_witness :
  exists md,
    metadata (content (snd (fst Examples.fact_create))) = Some md
    /\ "facts" = getTableNameForType Examples.messages_manager (type md).
Proof.
  apply (proj1 (@createMemory_routes_by_type
                  Sim.State Sim.Date_now Examples.messages_manager
                  (Examples.with_metadata Examples.tagged_fact) false Examples.empty_db
                  (fst (fst Examples.fact_create))
                  (snd (fst Examples.fact_create))
                  (snd Examples.fact_create)
                  eq_refl)
               (snd (fst Examples.fact_create)) "facts" false).
  vm_compute. left. reflexivity.
Defined.

Lemma createMemory_embeds_null_input_witness :
  embedder_inputs (calls (snd Examples.first_create)) = [JSNull]
  /\ exists table,
       created (calls (snd Examples.first_create))
       = [(snd (fst Examples.first_create), table, false)].
Proof.
  apply (proj2 (proj2 (@createMemory_embeds_null_input
                         Sim.State Sim.Date_now Examples.knowledge_manager
                         Examples.hello false Examples.empty_db
                         (fst (fst Examples.first_create))
                         (snd (fst Examples.first_create))
                         (snd Examples.first_create)
                         eq_refl eq_refl))
               Examples.empty_db eq_refl eq_refl).
Defined.

(** C1, as worded, fails.  The memory [hello] has no embedding, has the
    text hello and is not a duplicate; the Embedder answers that text with a
    vector other than the fallback; yet the record handed to the Store
    carries the fallback vector, and the Embedder was never given the text. *)
Lemma createMemory_does_not_embed_the_text :
  embedding Examples.hello = None
  /\ text (content Examples.hello) = Some "hello"
  /\ Sim.find_row (id Examples.hello) Examples.empty_db = None
  /\ embedder_inputs (calls (snd Examples.first_create)) = [JSNull]
  /\ ~ handed_embedding_is_of_text Examples.knowledge_manager Examples.hello
         (calls (snd Examples.first_create)).
Proof.
  repeat split; try reflexivity.
  intros H.
  destruct (H (snd (fst Examples.first_create)) "knowledge" false)
    as (s & v & y & y' & T & U & S).
  - vm_compute. left. reflexivity.
  - injection T as <-.
    change (Sim.embed (JSString "hello") y = (OK v, y')) in U.
    apply Sim_embed_text in U. subst v. vm_compute in S. discriminate S.
Qed.

(** C4, as worded, fails.  The caller supplied timestamp 0 and an empty
    source, and the validator accepts the metadata; the record that is
    stored has the clock reading as timestamp and the partition name as
    source. *)
Lemma createMemory_overwrites_falsy_supplied_fields :
  validateMetadata Examples.fact_at_epoch = OK tt
  /\ exists md',
       metadata (content (snd (fst Examples.epoch_create))) = Some md'
       /\ Sim.rows (ext (snd Examples.epoch_create))
          = [(snd (fst Examples.epoch_create), "facts")]
       /\ timestamp md' = JSNumber 1000%float
       /\ source md' = JSString "facts"
       /\ ~ supplied_fields_kept Examples.fact_at_epoch md'.
Proof.
  split; [reflexivity|].
  eexists. split; [reflexivity|]. split; [reflexivity|].
  split; [reflexivity|]. split; [reflexivity|].
  intros (_ & T & _). specialize (T eq_refl). vm_compute in T. discriminate T.
Qed.

(* ===================================================================== *)
(** * More on the embedding ensurer *)
(* ===================================================================== *)

Section EnsurerCases.
Context {W : Type} (this : MemoryManager W).

Let embed := Runtime.useModel (runtime this).

(** Every path of [addEmbeddingToMemory]. *)
Lemma addEmbeddingToMemory_run memory x cs :
  addEmbeddingToMemory this memory (mkWorld x cs)
  = match embedding memory with
    | Some _ => (OK memory, memory, mkWorld x cs)
    | None =>
        let memoryText := text_value (text (content memory)) in
        if truthy memoryText then
          match embed memoryText x with
          | (OK v, x1) =>
              (OK (set_embedding (Some v) memory), set_embedding (Some v) memory,
               mkWorld x1 (cs ++ [Call_useModel memoryText]))
          | (Throw e, x1) =>
              let cs3 := (cs ++ [Call_useModel memoryText;
                                 Call_logger_error "Failed to generate embedding:" e;
                                 Call_useModel JSNull])%list in
              match embed JSNull x1 with
              | (OK v, x2) =>
                  (OK (set_embedding (Some v) memory), set_embedding (Some v) memory,
                   mkWorld x2 cs3)
              | (Throw e2, x2) => (Throw e2, memory, mkWorld x2 cs3)
              end
          end
        else (Throw (Error "Cannot generate embedding: Memory content is empty"),
              memory, mkWorld x cs)
    end.
Proof.
  unfold addEmbeddingToMemory, addEmbeddingToMemory_body, bind, read, try_catch,
    useModel, logger, call, perform, assign, ret, throw, embed.
  destruct (embedding memory) as [v0|]; [reflexivity|]. cbn.
  destruct (truthy (text_value (text (content memory)))); [|reflexivity]. cbn.
  destruct (Runtime.useModel (runtime this) _ x) as [[v|e] x1]; cbn; [reflexivity|].
  destruct (Runtime.useModel (runtime this) JSNull x1) as [[v|e2] x2]; cbn;
    rewrite <- !app_assoc; reflexivity.
Qed.

(** X1.  Without embedding and without text (missing or empty), the ensurer
    throws its own error at once: no call is made, the object is not
    touched. *)
Theorem addEmbeddingToMemory_rejects_empty_text memory w :
  embedding memory = None ->
  text (content memory) = None \/ text (content memory) = Some EmptyString ->
  addEmbeddingToMemory this memory w
  = (Throw (Error "Cannot generate embedding: Memory content is empty"), memory, w).
Proof.
  intros E T. destruct w as [x cs]. rewrite addEmbeddingToMemory_run, E.
  destruct T as [-> | ->]; reflexivity.
Qed.

(** X2.  When the Embedder answers the text, the ensurer asked it once, for
    that text, logged nothing, and returns the object carrying the answer. *)
Theorem addEmbeddingToMemory_embeds_the_text memory s x v x1 :
  embedding memory = None ->
  text (content memory) = Some s ->
  s <> EmptyString ->
  embed (JSString s) x = (OK v, x1) ->
  addEmbeddingToMemory this memory (fresh x)
  = (OK (set_embedding (Some v) memory), set_embedding (Some v) memory,
     mkWorld x1 [Call_useModel (JSString s)]).
Proof.
  intros E T N U. unfold fresh. rewrite addEmbeddingToMemory_run, E.
  cbv zeta.
  assert (Tr : truthy (text_value (text (content memory))) = true).
  { apply truthy_text_value. exists s. split; assumption. }
  rewrite Tr, T. cbn [text_value]. rewrite U. reflexivity.
Qed.

(** X3.  The fallback call is not guarded: when the Embedder throws on the
    text and then on null, the second error reaches the caller and the
    object stays without embedding. *)
Theorem addEmbeddingToMemory_fallback_failure_propagates memory s x e x1 e2 x2 :
  embedding memory = None ->
  text (content memory) = Some s ->
  s <> EmptyString ->
  embed (JSString s) x = (Throw e, x1) ->
  embed JSNull x1 = (Throw e2, x2) ->
  addEmbeddingToMemory this memory (fresh x)
  = (Throw e2, memory,
     mkWorld x2 [Call_useModel (JSString s);
                 Call_logger_error "Failed to generate embedding:" e;
                 Call_useModel JSNull]).
Proof.
  intros E T N U U2. unfold fresh. rewrite addEmbeddingToMemory_run, E.
  cbv zeta.
  assert (Tr : truthy (text_value (text (content memory))) = true).
  { apply truthy_text_value. exists s. split; assumption. }
  rewrite Tr, T. cbn [text_value]. rewrite U, U2. reflexivity.
Qed.

(** X4.  Whatever happens, the ensurer changes nothing of the object but
    its embedding, and that only from unset to set; what it returns is the
    object itself, which then has an embedding; when it throws, the object
    is as it was. *)
Theorem addEmbeddingToMemory_frame memory w r memory' w' :
  addEmbeddingToMemory this memory w = (r, memory', w') ->
  id memory' = id memory
  /\ agentId memory' = agentId memory
  /\ roomId memory' = roomId memory
  /\ content memory' = content memory
  /\ (embedding memory <> None -> embedding memory' = embedding memory)
  /\ (forall m, r = OK m -> m = memory' /\ embedding m <> None)
  /\ (forall e, r = Throw e -> memory' = memory).
Proof.
  destruct w as [x cs]. rewrite addEmbeddingToMemory_run.
  assert (Done : forall r0 m0 w0,
             (r0, m0, w0) = (r, memory', w') ->
             (m0 = memory /\ (r0 = OK memory -> embedding memory <> None)
              /\ (forall m, r0 = OK m -> m = memory)
              \/ exists v, embedding memory = None
                           /\ m0 = set_embedding (Some v) memory /\ r0 = OK m0) ->
             id memory' = id memory
             /\ agentId memory' = agentId memory
             /\ roomId memory' = roomId memory
             /\ content memory' = content memory
             /\ (embedding memory <> None -> embedding memory' = embedding memory)
             /\ (forall m, r = OK m -> m = memory' /\ embedding m <> None)
             /\ (forall e, r = Throw e -> memory' = memory)).
  { intros r0 m0 w0 H [(-> & S & M) | (v & E & -> & ->)];
      inversion H; subst; clear H.
    - do 4 (split; [reflexivity|]). split; [reflexivity|]. split.
      + intros m H. pose proof (M m H) as ->. split; [reflexivity | auto].
      + reflexivity.
    - do 4 (split; [reflexivity|]). split; [congruence|]. split.
      + intros m H. inversion H. split; [reflexivity | discriminate].
      + discriminate. }
  destruct (embedding memory) as [v0|] eqn:E.
  - intros H. apply (Done _ _ _ H). left. repeat split; congruence.
  - cbv zeta. destruct (truthy _).
    + destruct (embed _ x) as [[v|e] x1].
      * intros H. apply (Done _ _ _ H). right. exists v. repeat split; assumption.
      * destruct (embed JSNull x1) as [[v|e2] x2]; intros H; apply (Done _ _ _ H).
        -- right. exists v. repeat split; assumption.
        -- left. repeat split; discriminate.
    + intros H. apply (Done _ _ _ H). left. repeat split; discriminate.
Qed.

(** X5.  The ensurer talks to the Embedder and the logger only: it never
    reads or writes the Store and never reads the clock; it asks the
    Embedder at most twice, and a second time only for null. *)
Theorem addEmbeddingToMemory_calls memory x r memory' w' :
  addEmbeddingToMemory this memory (fresh x) = (r, memory', w') ->
  created (calls w') = []
  /\ lookups (calls w') = []
  /\ clock_reads (calls w') = 0
  /\ (embedder_inputs (calls w') = []
      \/ embedder_inputs (calls w') = [text_value (text (content memory))]
      \/ embedder_inputs (calls w') = [text_value (text (content memory)); JSNull]).
Proof.
  unfold fresh. rewrite addEmbeddingToMemory_run.
  destruct (embedding memory) as [v0|].
  - intros H; inversion H; subst; clear H; cbn; repeat (split; [reflexivity|]); auto.
  - cbv zeta. destruct (truthy _).
    + destruct (embed _ x) as [[v|e] x1].
      * intros H; inversion H; subst; clear H; cbn; repeat (split; [reflexivity|]); auto.
      * destruct (embed JSNull x1) as [[v|e2] x2];
          intros H; inversion H; subst; clear H; cbn; repeat (split; [reflexivity|]); auto.
    + intros H; inversion H; subst; clear H; cbn; repeat (split; [reflexivity|]); auto.
Qed.

(** X6.  Ensuring twice is ensuring once: on the memory a first call
    returned, a second call returns the same memory and calls nothing. *)
Theorem addEmbeddingToMemory_idempotent memory w m memory' w' :
  addEmbeddingToMemory this memory w = (OK m, memory', w') ->
  addEmbeddingToMemory this m w' = (OK m, m, w').
Proof.
  intros H.
  assert (S : embedding m <> None).
  { destruct w as [x cs]. rewrite addEmbeddingToMemory_run in H.
    destruct (embedding memory) as [v0|] eqn:E.
    - inversion H; subst. congruence.
    - cbv zeta in H. destruct (truthy _); [|discriminate H].
      destruct (embed _ x) as [[v|e] x1].
      + inversion H; subst. discriminate.
      + destruct (embed JSNull x1) as [[v|e2] x2]; inversion H; subst. discriminate. }
  destruct w' as [x' cs']. rewrite addEmbeddingToMemory_run.
  destruct (embedding m); [reflexivity | congruence].
Qed.

End EnsurerCases.

(* ===================================================================== *)
(** * More on the validator *)
(* ===================================================================== *)

(** The validator returns exactly when none of its six tests fires. *)
Lemma validateMetadata_ok_iff (md : KnowledgeMetadata) :
  validateMetadata md = OK tt
  <-> includes ["document"; "fragment"; "message"; "fact"] (type md) = true
      /\ truthy (sourceId md) && negb (typeof (sourceId md) =? "string") = false
      /\ negb (is_undefined (chunkIndex md))
         && negb (typeof (chunkIndex md) =? "number") = false
      /\ truthy (source md) && negb (typeof (source md) =? "string") = false
      /\ truthy (scope md)
         && negb (includes ["shared"; "private"; "room"] (scope md)) = false
      /\ truthy (tags md) && negb (Array_isArray (tags md)) = false.
Proof.
  unfold validateMetadata. rewrite type_test.
  destruct (includes _ (type md)); cbn [negb];
    [|split; [discriminate | intros (H & _); discriminate H]].
  repeat match goal with
         | |- context [if ?b then _ else _] => destruct b
         end;
    split; try discriminate; try (intros (_ & ? & ? & ? & ? & ?); discriminate);
    intros _; repeat split; reflexivity.
Qed.

Lemma optional_string_passes (v : JSValue) :
  optional is_string v = true ->
  truthy v && negb (typeof v =? "string") = false.
Proof. destruct v; cbn; try discriminate; intros _; auto using andb_false_r. Qed.

Lemma optional_number_passes (v : JSValue) :
  optional is_number v = true ->
  negb (is_undefined v) && negb (typeof v =? "number") = false.
Proof. destruct v; cbn; try discriminate; reflexivity. Qed.

Lemma optional_scope_passes (v : JSValue) :
  optional (includes ["shared"; "private"; "room"]) v = true ->
  truthy v && negb (includes ["shared"; "private"; "room"] v) = false.
Proof.
  destruct v; cbn -[includes]; try discriminate; try reflexivity.
  intros ->. apply andb_false_r.
Qed.

Lemma optional_tags_passes (v : JSValue) :
  optional is_string_array v = true ->
  truthy v && negb (Array_isArray v) = false.
Proof. destruct v; cbn; try discriminate; reflexivity. Qed.

(** X7.  Metadata of the declared shape is always accepted: a type of the
    closed set, and each other field either left out or of its declared
    kind (strings, numbers, a scope of the closed set, an array of
    strings). *)
Theorem validateMetadata_accepts_declared_shape (md : KnowledgeMetadata) :
  conforms md = true -> validateMetadata md = OK tt.
Proof.
  unfold conforms. intros H.
  repeat (apply andb_true_iff in H; destruct H as [H ?]).
  apply validateMetadata_ok_iff.
  auto 10 using optional_string_passes, optional_number_passes,
    optional_scope_passes, optional_tags_passes.
Qed.

Lemma validateMetadata_accepts_declared_shape_witness :
  validateMetadata Examples.tagged_fact = OK tt.
Proof.
  apply (validateMetadata_accepts_declared_shape Examples.tagged_fact).
  reflexivity.
Defined.

Lemma typeof_string_is_string (v : JSValue) :
  truthy v && negb (typeof v =? "string") = false ->
  truthy v = true ->
  is_string v = true.
Proof. destruct v; cbn; intros H T; try rewrite T in H; try discriminate; reflexivity. Qed.

(** Step 3 keeps metadata valid, and leaves it with a scope of the closed
    set and a source that is a string. *)
Lemma validateMetadata_backfilled partition memory t md :
  validateMetadata md = OK tt ->
  validateMetadata (backfilled partition memory t md) = OK tt
  /\ includes ["shared"; "private"; "room"] (scope (backfilled partition memory t md)) = true
  /\ is_string (source (backfilled partition memory t md)) = true.
Proof.
  intros V. apply validateMetadata_ok_iff in V.
  destruct V as (T & S1 & C & S2 & S3 & G).
  rewrite validateMetadata_ok_iff. unfold backfilled, default_scope. cbn.
  destruct (truthy (source md)) eqn:So, (truthy (scope md)) eqn:Sc.
  all: cbn in S2, S3.
  all: repeat split; try assumption; try reflexivity.
  all: try (apply negb_false_iff in S3; rewrite S3; reflexivity).
  all: try (apply typeof_string_is_string; [rewrite So|]; assumption).
  all: try (rewrite So; exact S2).
  all: try (rewrite Sc; exact S3).
  all: try (destruct (agentId memory); reflexivity).
  all: try apply andb_false_r.
Qed.

Lemma validateMetadata_synthesized_shape partition memory t :
  includes ["shared"; "private"; "room"] (scope (synthesized partition memory t)) = true
  /\ is_string (source (synthesized partition memory t)) = true.
Proof. unfold synthesized, default_scope; cbn. destruct (agentId memory); split; reflexivity. Qed.

(* ===================================================================== *)
(** * More on the creation workflow *)
(* ===================================================================== *)

Section CreationCases.
Context {W : Type} (Date_now : W -> number * W) (this : MemoryManager W).

Local Open Scope mut_scope.

Let lookup := DatabaseAdapter.getMemoryById (Runtime.databaseAdapter (runtime this)).
Let store_create := DatabaseAdapter.createMemory (Runtime.databaseAdapter (runtime this)).
Let embed := Runtime.useModel (runtime this).

(** What steps 2 and 3 leave when they return: the object with metadata
    that is either synthesized or the caller's, backfilled; the clock was
    read at most twice and nothing else was called. *)
Lemma prepare_cases memory x cs :
  let out := (initMetadata Date_now this ;; handleMetadata Date_now this)
               memory (mkWorld x cs) in
  (exists md e,
      metadata (content memory) = Some md
      /\ validateMetadata md = Throw e
      /\ out = (Throw e, memory, mkWorld x cs))
  \/ (exists md2 x2 n,
        out = (OK tt, set_metadata (Some md2) memory,
               mkWorld x2 (cs ++ repeat Call_Date_now n))
        /\ n <= 2
        /\ validateMetadata md2 = OK tt
        /\ includes ["shared"; "private"; "room"] (scope md2) = true
        /\ is_string (source md2) = true
        /\ (metadata (content memory) = None
            /\ (exists t, md2 = synthesized (tableName this) memory t)
            \/ exists md t,
                 metadata (content memory) = Some md
                 /\ validateMetadata md = OK tt
                 /\ md2 = backfilled (tableName this) memory t md)).
Proof.
  cbv zeta. unfold bind.
  destruct (metadata (content memory)) as [md|] eqn:M.
  - erewrite initMetadata_present by exact M.
    destruct (validateMetadata md) as [[]|e] eqn:V.
    + right. erewrite handleMetadata_valid by eassumption.
      destruct (validateMetadata_backfilled (tableName this) memory
                  (fst (Date_now x)) md V) as (V2 & S2 & R2).
      cbn [ext calls].
      destruct (truthy (timestamp md)).
      * exists (backfilled (tableName this) memory (fst (Date_now x)) md), x, 0.
        cbn [repeat]. rewrite app_nil_r.
        repeat split; auto. right. exists md, (fst (Date_now x)). auto.
      * exists (backfilled (tableName this) memory (fst (Date_now x)) md),
          (snd (Date_now x)), 1.
        repeat split; auto. right. exists md, (fst (Date_now x)). auto.
    + left. exists md, e. erewrite handleMetadata_invalid by eassumption. auto.
  - right. erewrite initMetadata_absent by exact M.
    erewrite handleMetadata_valid
      by (try reflexivity; apply validateMetadata_synthesized).
    cbn [fst ext calls timestamp synthesized].
    rewrite backfilled_set_metadata, backfilled_synthesized, set_metadata_twice.
    match goal with
    | |- context [synthesized _ _ ?u] => set (t := u)
    end.
    destruct (validateMetadata_synthesized_shape (tableName this) memory t) as [S2 R2].
    pose proof (validateMetadata_synthesized (tableName this) memory t) as V2.
    destruct (truthy (JSNumber (fst (Date_now x)))).
    + exists (synthesized (tableName this) memory t), (snd (Date_now x)), 1.
      repeat split; auto. left. split; [reflexivity|]. exists t. reflexivity.
    + exists (synthesized (tableName this) memory t),
        (snd (Date_now (snd (Date_now x)))), 2.
      cbn [repeat]. rewrite <- app_assoc.
      repeat split; auto. left. split; [reflexivity|]. exists t. reflexivity.
Qed.

(** How steps 4 to 6 end, on an object that has its metadata. *)
Lemma rest_cases memory md unique x cs r memory' w' :
  metadata (content memory) = Some md ->
  (logCreating ;; fillEmbedding this ;; persist this unique) memory (mkWorld x cs)
    = (r, memory', w') ->
  let logged := Call_logger_log "Creating Memory" (id memory) (text (content memory)) in
  let table := getTableNameForType this (type md) in
  (exists v0 x4,
      embedding memory = Some v0
      /\ memory' = memory
      /\ store_create memory table unique x = (r, x4)
      /\ w' = mkWorld x4 (cs ++ [logged; Call_createMemory memory table unique]))
  \/ (exists v x3 x4,
        embedding memory = None
        /\ embed JSNull x = (OK v, x3)
        /\ memory' = set_embedding (Some v) memory
        /\ store_create memory' table unique x3 = (r, x4)
        /\ w' = mkWorld x4 (cs ++ [logged; Call_useModel JSNull;
                                   Call_createMemory memory' table unique]))
  \/ (exists e x3,
        embedding memory = None
        /\ embed JSNull x = (Throw e, x3)
        /\ r = Throw e
        /\ memory' = memory
        /\ w' = mkWorld x3 (cs ++ [logged; Call_useModel JSNull])).
Proof.
  intros M E. erewrite rest_run in E by exact M. cbv zeta in E |- *.
  fold store_create embed in E.
  destruct (embedding memory) as [v0|] eqn:EM.
  - left. exists v0, (snd (store_create memory (getTableNameForType this (type md)) unique x)).
    inversion E; subst; clear E. rewrite <- app_assoc. cbn [app].
    repeat split; try reflexivity. apply surjective_pairing.
  - destruct (embed JSNull x) as [[v|e] x3] eqn:U.
    + right; left. exists v, x3.
      exists (snd (store_create (set_embedding (Some v) memory)
                     (getTableNameForType this (type md)) unique x3)).
      inversion E; subst; clear E. rewrite <- !app_assoc. cbn [app].
      repeat split; try reflexivity. apply surjective_pairing.
    + right; right. exists e, x3.
      inversion E; subst; clear E. rewrite <- app_assoc. cbn [app].
      repeat split; reflexivity.
Qed.

(** Every way a call can go. *)
Lemma createMemory_cases memory unique x r memory' w' :
  createMemory Date_now this memory unique (fresh x) = (r, memory', w') ->
  (exists existing x1,
      lookup (id memory) x = (OK (Some existing), x1)
      /\ r = OK tt /\ memory' = memory
      /\ w' = mkWorld x1 [Call_getMemoryById (id memory);
                          Call_logger_debug "Memory already exists, skipping"])
  \/ (exists e x1,
        lookup (id memory) x = (Throw e, x1)
        /\ r = Throw e /\ memory' = memory
        /\ w' = mkWorld x1 [Call_getMemoryById (id memory)])
  \/ (exists md e x1,
        lookup (id memory) x = (OK None, x1)
        /\ metadata (content memory) = Some md
        /\ validateMetadata md = Throw e
        /\ r = Throw e /\ memory' = memory
        /\ w' = mkWorld x1 [Call_getMemoryById (id memory)])
  \/ (exists x1 md2 x2 n,
        lookup (id memory) x = (OK None, x1)
        /\ n <= 2
        /\ validateMetadata md2 = OK tt
        /\ includes ["shared"; "private"; "room"] (scope md2) = true
        /\ is_string (source md2) = true
        /\ (metadata (content memory) = None
            /\ (exists t, md2 = synthesized (tableName this) memory t)
            \/ exists md t,
                 metadata (content memory) = Some md
                 /\ validateMetadata md = OK tt
                 /\ md2 = backfilled (tableName this) memory t md)
        /\ (logCreating ;; fillEmbedding this ;; persist this unique)
             (set_metadata (Some md2) memory)
             (mkWorld x2 (Call_getMemoryById (id memory) :: repeat Call_Date_now n))
           = (r, memory', w')).
Proof.
  intros E. destruct (lookup (id memory) x) as [[[existing|]|e] x1] eqn:L.
  - left. exists existing, x1. erewrite createMemory_duplicate in E by exact L.
    inversion E; subst; clear E. repeat split; reflexivity.
  - erewrite createMemory_new in E by exact L. cbn [fresh calls ext app] in E.
    destruct (prepare_cases memory x1 [Call_getMemoryById (id memory)])
      as [(md & e & M & V & P) | (md2 & x2 & n & P & N & V & S & R & O)];
      cbv zeta in P; rewrite P in E.
    + right; right; left. exists md, e, x1.
      inversion E; subst; clear E. repeat split; auto.
    + right; right; right. exists x1, md2, x2, n. cbn [app] in E.
      repeat split; auto.
  - right; left. exists e, x1. erewrite createMemory_lookup_fails in E by exact L.
    inversion E; subst; clear E. repeat split; reflexivity.
Qed.

End CreationCases.

Lemma created_prefix id n l :
  created ((Call_getMemoryById id :: repeat Call_Date_now n) ++ l) = created l.
Proof.
  unfold created. rewrite flat_map_app. cbn [flat_map app].
  fold (created (repeat Call_Date_now n)). rewrite created_clock_reads. reflexivity.
Qed.

Lemma embedder_inputs_prefix id n l :
  embedder_inputs ((Call_getMemoryById id :: repeat Call_Date_now n) ++ l)
  = embedder_inputs l.
Proof.
  unfold embedder_inputs. rewrite flat_map_app. cbn [flat_map app].
  fold (embedder_inputs (repeat Call_Date_now n)).
  rewrite embedder_inputs_clock_reads. reflexivity.
Qed.

Lemma lookups_prefix id n l :
  lookups ((Call_getMemoryById id :: repeat Call_Date_now n) ++ l) = id :: lookups l.
Proof.
  unfold lookups. rewrite flat_map_app. cbn [flat_map app]. f_equal.
  induction n; cbn; auto.
Qed.

Lemma clock_reads_prefix id n l :
  clock_reads ((Call_getMemoryById id :: repeat Call_Date_now n) ++ l)
  = n + clock_reads l.
Proof.
  unfold clock_reads. cbn [app filter]. induction n; cbn; auto.
Qed.

Section CreationMore.
Context {W : Type} (Date_now : W -> number * W) (this : MemoryManager W).

Let lookup := DatabaseAdapter.getMemoryById (Runtime.databaseAdapter (runtime this)).
Let store_create := DatabaseAdapter.createMemory (Runtime.databaseAdapter (runtime this)).
Let embed := Runtime.useModel (runtime this).

(** Splits a call into the ways it can go, and its steps 4 to 6 into the
    ways they can end. *)
Ltac by_cases E :=
  try unfold lookup in *; try unfold embed in *; try unfold store_create in *;
  destruct (createMemory_cases Date_now this _ _ _ _ _ _ E)
    as [(cexisting & cx1 & cL & -> & -> & ->)
       | [(ce & cx1 & cL & -> & -> & ->)
         | [(cmd & ce & cx1 & cL & cM & cV & -> & -> & ->)
           | (cx1 & cmd2 & cx2 & cn & cL & cN & cV & cS & cR & cO & cT)]]];
  [ | | |
    destruct (rest_cases this (set_metadata (Some cmd2) _) cmd2 _ _ _ _ _ _ eq_refl cT)
      as [(cv & cx4 & cEM & -> & cC & ->)
         | [(cv & cx3 & cx4 & cEM & cU & -> & cC & ->)
           | (ce & cx3 & cEM & cU & -> & -> & ->)]];
    cbn [embedding set_metadata] in cEM ];
  cbn [calls ext] in *.

(** X8.  Metadata the validator rejects stops the call right after the
    duplicate check: the validator's error is thrown, the object is not
    touched, the clock and the Embedder are not asked, nothing is handed to
    the Store. *)
Theorem createMemory_invalid_metadata_fails_first memory md e unique x x1 :
  metadata (content memory) = Some md ->
  validateMetadata md = Throw e ->
  lookup (id memory) x = (OK None, x1) ->
  createMemory Date_now this memory unique (fresh x)
  = (Throw e, memory, mkWorld x1 [Call_getMemoryById (id memory)]).
Proof.
  intros M V L. erewrite createMemory_new by exact L.
  unfold bind at 1. erewrite initMetadata_present by exact M.
  erewrite handleMetadata_invalid by eassumption. reflexivity.
Qed.

(** X9.  An embedding the caller supplied is final: the Embedder is not
    invoked, and the object and every record handed to the Store carry the
    caller's vector. *)
Theorem createMemory_keeps_supplied_embedding memory v unique x r memory' w' :
  embedding memory = Some v ->
  createMemory Date_now this memory unique (fresh x) = (r, memory', w') ->
  embedder_inputs (calls w') = []
  /\ embedding memory' = Some v
  /\ forall stored table u,
       In (stored, table, u) (created (calls w')) -> embedding stored = Some v.
Proof.
  intros EV E. by_cases E; try congruence.
  - repeat split; auto. intros ? ? ? [].
  - repeat split; auto. intros ? ? ? [].
  - repeat split; auto. intros ? ? ? [].
  - rewrite embedder_inputs_prefix, created_prefix. cbn.
    repeat split; auto. intros stored table u [I|[]]. inversion I; subst. exact EV.
Qed.

(** X10.  In [createMemory] a failing Embedder is not caught: with an
    Embedder that throws [e] on null, a memory without embedding that passes
    steps 1 to 3 makes the call throw [e]; nothing is handed to the Store,
    yet the object has already received its metadata. *)
Theorem createMemory_embedder_failure_propagates memory e unique x x1 r memory' w' :
  (forall y, fst (embed JSNull y) = Throw e) ->
  embedding memory = None ->
  lookup (id memory) x = (OK None, x1) ->
  (forall md, metadata (content memory) = Some md -> validateMetadata md = OK tt) ->
  createMemory Date_now this memory unique (fresh x) = (r, memory', w') ->
  r = Throw e
  /\ created (calls w') = []
  /\ embedder_inputs (calls w') = [JSNull]
  /\ metadata (content memory') <> None
  /\ embedding memory' = None.
Proof.
  intros HF HE HL HV E. by_cases E; try congruence.
  all: try (rewrite (HV _ cM) in cV; discriminate).
  all: pose proof (HF cx2) as F2; rewrite cU in F2; cbn in F2; try discriminate.
  inversion F2; subst.
  rewrite created_prefix, embedder_inputs_prefix. cbn.
  repeat split; auto. discriminate.
Qed.

(** X11.  Once a record is handed to the Store, the outcome of the call is
    the Store's: its error reaches the caller as it is, its success is the
    call's success, and the state it leaves is the state the call leaves. *)
Theorem createMemory_outcome_is_the_stores memory unique x r memory' w' :
  createMemory Date_now this memory unique (fresh x) = (r, memory', w') ->
  forall stored table u,
    In (stored, table, u) (created (calls w')) ->
    exists y, store_create stored table u y = (r, ext w').
Proof.
  intros E stored table u I. by_cases E; try (destruct I; fail).
  - rewrite created_prefix in I. cbn in I. destruct I as [I|[]].
    inversion I; subst. exists cx2. exact cC.
  - rewrite created_prefix in I. cbn in I. destruct I as [I|[]].
    inversion I; subst. exists cx3. exact cC.
  - rewrite created_prefix in I. cbn in I. destruct I.
Qed.

(** X12.  A failing duplicate check ends the call: the Store's error is
    thrown, and nothing else was called or changed. *)
Theorem createMemory_lookup_failure_propagates memory unique w e x1 :
  lookup (id memory) (ext w) = (Throw e, x1) ->
  createMemory Date_now this memory unique w
  = (Throw e, memory, mkWorld x1 (calls w ++ [Call_getMemoryById (id memory)])).
Proof. intros L. apply createMemory_lookup_fails. exact L. Qed.

(** X13.  Whatever happens, [createMemory] changes nothing of the object but
    its metadata and its embedding: id, agentId, roomId and text stay; an
    embedding that was set stays; of metadata that was there, type,
    sourceId, chunkIndex and tags stay. *)
Theorem createMemory_frame memory unique x r memory' w' :
  createMemory Date_now this memory unique (fresh x) = (r, memory', w') ->
  id memory' = id memory
  /\ agentId memory' = agentId memory
  /\ roomId memory' = roomId memory
  /\ text (content memory') = text (content memory)
  /\ (embedding memory <> None -> embedding memory' = embedding memory)
  /\ (forall md, metadata (content memory) = Some md ->
        exists md', metadata (content memory') = Some md'
                    /\ type md' = type md
                    /\ sourceId md' = sourceId md
                    /\ chunkIndex md' = chunkIndex md
                    /\ tags md' = tags md).
Proof.
  intros E.
  assert (K : forall md, metadata (content memory) = Some md ->
                         exists md', metadata (content memory) = Some md'
                                     /\ type md' = type md
                                     /\ sourceId md' = sourceId md
                                     /\ chunkIndex md' = chunkIndex md
                                     /\ tags md' = tags md).
  { intros md M. exists md. auto. }
  by_cases E; try (repeat split; auto; fail).
  all: do 4 (split; [reflexivity|]); split; [cbn; congruence|].
  all: intros md M; exists cmd2; split; [reflexivity|].
  all: destruct cO as [[M0 _] | (md1 & t & M0 & _ & ->)]; [congruence|].
  all: rewrite M in M0; inversion M0; subst; repeat split; reflexivity.
Qed.

(** X14.  Every record handed to the Store is complete: it has an
    embedding, and metadata that the validator accepts, with a scope of the
    closed set and a source that is a string; it is the object itself, and
    the flag is the caller's. *)
Theorem createMemory_persisted_record_is_complete memory unique x r memory' w' :
  createMemory Date_now this memory unique (fresh x) = (r, memory', w') ->
  forall stored table u,
    In (stored, table, u) (created (calls w')) ->
    stored = memory'
    /\ u = unique
    /\ embedding stored <> None
    /\ exists md,
         metadata (content stored) = Some md
         /\ validateMetadata md = OK tt
         /\ includes ["shared"; "private"; "room"] (scope md) = true
         /\ is_string (source md) = true.
Proof.
  intros E stored table u I. by_cases E; try (destruct I; fail).
  - rewrite created_prefix in I. cbn in I. destruct I as [I|[]].
    inversion I; subst. repeat split; [cbn; congruence|].
    exists cmd2. repeat split; assumption.
  - rewrite created_prefix in I. cbn in I. destruct I as [I|[]].
    inversion I; subst. repeat split; [discriminate|].
    exists cmd2. repeat split; assumption.
  - rewrite created_prefix in I. cbn in I. destruct I.
Qed.

Lemma getTableNameForType_routed v :
  includes ["document"; "fragment"; "message"; "fact"] v = true ->
  In (getTableNameForType this v) ["knowledge"; "messages"; "facts"].
Proof.
  destruct v; cbn; try discriminate.
  destruct (s =? "document"); [cbn; auto|].
  destruct (s =? "fragment"); [cbn; auto|].
  destruct (s =? "message"); [cbn; auto|].
  destruct (s =? "fact"); [cbn; auto|].
  discriminate.
Qed.

(** X15.  The routing fallback is never taken by [createMemory]: every
    record goes to knowledge, messages or facts, also when the manager is
    configured for another partition. *)
Theorem createMemory_never_uses_fallback_partition memory unique x r memory' w' :
  createMemory Date_now this memory unique (fresh x) = (r, memory', w') ->
  forall stored table u,
    In (stored, table, u) (created (calls w')) ->
    In table ["knowledge"; "messages"; "facts"].
Proof.
  intros E stored table u I. by_cases E; try (destruct I; fail).
  all: rewrite created_prefix in I; cbn in I; try (destruct I; fail);
    destruct I as [I|[]].
  all: inversion I; subst; apply getTableNameForType_routed.
  all: apply validateMetadata_ok_iff in cV; apply cV.
Qed.

(** X16.  A memory without metadata is stored under knowledge by the
    manager of the knowledge partition and under messages by every other
    manager, whatever that manager's own partition is. *)
Theorem createMemory_default_partition memory unique x r memory' w' :
  metadata (content memory) = None ->
  createMemory Date_now this memory unique (fresh x) = (r, memory', w') ->
  forall stored table u,
    In (stored, table, u) (created (calls w')) ->
    table = if tableName this =? "knowledge" then "knowledge" else "messages".
Proof.
  intros M E stored table u I. by_cases E; try (destruct I; fail).
  all: rewrite created_prefix in I; cbn in I; try (destruct I; fail);
    destruct I as [I|[]].
  all: inversion I; subst.
  all: destruct cO as [(_ & t & ->) | (md1 & t & M1 & _)]; [|congruence].
  all: cbn; destruct (tableName this =? "knowledge"); reflexivity.
Qed.

(** X17.  The duplicate check does not look at ownership.  When the Store
    holds, under the memory's id, a record of another agent, the manager's
    own [getMemoryById] reports nothing under that id, and yet
    [createMemory] stores nothing and reports success. *)
Theorem createMemory_blocked_by_foreign_record memory unique w existing x1 :
  lookup (id memory) (ext w) = (OK (Some existing), x1) ->
  agentId existing <> Runtime.agentId (runtime this) ->
  fst (getMemoryById this (id memory) w) = OK None
  /\ fst (fst (createMemory Date_now this memory unique w)) = OK tt
  /\ created (calls (snd (createMemory Date_now this memory unique w)))
     = created (calls w).
Proof.
  intros L A. erewrite getMemoryById_found by exact L.
  erewrite createMemory_duplicate by exact L.
  apply strict_eq_false in A. rewrite A. cbn [fst snd calls].
  repeat split. unfold created. rewrite flat_map_app. cbn. apply app_nil_r.
Qed.

(** X22.  One call costs at most: one lookup by the memory's id, made
    before anything else, two readings of the clock, one invocation of the
    Embedder and one record handed to the Store. *)
Theorem createMemory_effects_bounded memory unique x r memory' w' :
  createMemory Date_now this memory unique (fresh x) = (r, memory', w') ->
  hd_error (calls w') = Some (Call_getMemoryById (id memory))
  /\ lookups (calls w') = [id memory]
  /\ clock_reads (calls w') <= 2
  /\ length (embedder_inputs (calls w')) <= 1
  /\ length (created (calls w')) <= 1.
Proof.
  intros E. by_cases E.
  1-3: cbn; repeat split; auto.
  all: rewrite lookups_prefix, clock_reads_prefix, embedder_inputs_prefix,
         created_prefix; cbn; repeat split; auto; lia.
Qed.

End CreationMore.

(* ===================================================================== *)
(** * More on fetch by id *)
(* ===================================================================== *)

Section OwnershipMore.
Context {W : Type} (this : MemoryManager W).

Let lookup := DatabaseAdapter.getMemoryById (Runtime.databaseAdapter (runtime this)).

(** X18.  [getMemoryById] never hands out a record of another agent:
    whatever it returns, a record in the result is the one the Store found
    and its agentId is the runtime's own.  It asks the Store once and calls
    nothing else. *)
Theorem getMemoryById_never_leaks id w r w' :
  getMemoryById this id w = (r, w') ->
  calls w' = (calls w ++ [Call_getMemoryById id])%list
  /\ forall record,
       r = OK (Some record) ->
       agentId record = Runtime.agentId (runtime this)
       /\ lookup id (ext w) = (OK (Some record), ext w').
Proof.
  unfold getMemoryById, perform. fold lookup.
  destruct (lookup id (ext w)) as [[[record|]|e] x1].
  - destruct (strict_eq (agentId record) (Runtime.agentId (runtime this))) eqn:A;
      cbn; intros H; inversion H; subst; clear H; (split; [reflexivity|]);
      intros record' H; inversion H; subst.
    split; [apply strict_eq_true; exact A | reflexivity].
  - intros H; inversion H; subst. split; [reflexivity|]. discriminate.
  - intros H; inversion H; subst. split; [reflexivity|]. discriminate.
Qed.

(** X19.  When the Store finds nothing, or fails, its answer is the
    manager's answer: null for nothing, the Store's error for a failure. *)
Theorem getMemoryById_passes_on_absence_and_failure id w r0 x1 :
  lookup id (ext w) = (r0, x1) ->
  (forall record, r0 <> OK (Some record)) ->
  getMemoryById this id w = (r0, mkWorld x1 (calls w ++ [Call_getMemoryById id])).
Proof.
  intros L N. unfold getMemoryById, perform. fold lookup. rewrite L.
  destruct r0 as [[record|]|e]; try reflexivity.
  contradiction (N record). reflexivity.
Qed.

End OwnershipMore.

(* ===================================================================== *)
(** * Query, count and delete *)
(* ===================================================================== *)

Section PassthroughFacts.
Context {W : Type} (adapter : DatabaseQueries.IDatabaseQueries W).


(** X21.  The query, count and delete operations apply no ownership
    filter: a manager enters them only through its partition name, so two
    managers on the same adapter and partition, whatever the agents of
    their runtimes, send the same requests and get the same answers. *)
Theorem passthrough_depends_on_partition_only (this1 this2 : MemoryManager W) :
  tableName this1 = tableName this2 ->
  (forall opts, getMemories adapter this1 opts = getMemories adapter this2 opts)
  /\ (forall content,
        getCachedEmbeddings adapter this1 content
        = getCachedEmbeddings adapter this2 content)
  /\ (forall opts, searchMemories adapter this1 opts = searchMemories adapter this2 opts)
  /\ (forall params,
        getMemoriesByRoomIds adapter this1 params
        = getMemoriesByRoomIds adapter this2 params)
  /\ (forall memoryId,
        removeMemory adapter this1 memoryId = removeMemory adapter this2 memoryId)
  /\ (forall roomId,
        removeAllMemories adapter this1 roomId = removeAllMemories adapter this2 roomId)
  /\ (forall roomId unique,
        countMemories adapter this1 roomId unique
        = countMemories adapter this2 roomId unique).
Proof.
  intros T.
  unfold getMemories, getCachedEmbeddings, searchMemories, getMemoriesByRoomIds,
    removeMemory, removeAllMemories, countMemories.
  rewrite T. repeat split; reflexivity.
Qed.

End PassthroughFacts.

(* ===================================================================== *)
(** * The further properties on the simulated runtime *)
(* ===================================================================== *)

Lemma addEmbeddingToMemory_rejects_empty_text_witness :
  addEmbeddingToMemory Examples.knowledge_manager Scenarios.blank
                       (fresh Examples.empty_db)
  = (Throw (Error "Cannot generate embedding: Memory content is empty"),
     Scenarios.blank, fresh Examples.empty_db).
Proof.
  apply (@addEmbeddingToMemory_rejects_empty_text
           Sim.State Examples.knowledge_manager Scenarios.blank
           (fresh Examples.empty_db) eq_refl).
  left. reflexivity.
Defined.

Lemma addEmbeddingToMemory_embeds_the_text_witness :
  Scenarios.ensured
  = (OK (set_embedding (Some [1%float; 5%float; 0.5%float]) Examples.hello),
     set_embedding (Some [1%float; 5%float; 0.5%float]) Examples.hello,
     mkWorld Examples.empty_db [Call_useModel (JSString "hello")]).
Proof.
  apply (@addEmbeddingToMemory_embeds_the_text
           Sim.State Examples.knowledge_manager Examples.hello "hello"
           Examples.empty_db [1%float; 5%float; 0.5%float] Examples.empty_db
           eq_refl eq_refl).
  - discriminate.
  - reflexivity.
Defined.

Lemma addEmbeddingToMemory_fallback_failure_propagates_witness :
  addEmbeddingToMemory Scenarios.crashed_model_manager Examples.hello
                       (fresh Examples.empty_db)
  = (Throw Scenarios.model_error, Examples.hello,
     mkWorld Examples.empty_db
             [Call_useModel (JSString "hello");
              Call_logger_error "Failed to generate embedding:" Scenarios.model_error;
              Call_useModel JSNull]).
Proof.
  apply (@addEmbeddingToMemory_fallback_failure_propagates
           Sim.State Scenarios.crashed_model_manager Examples.hello "hello"
           Examples.empty_db Scenarios.model_error Examples.empty_db
           Scenarios.model_error Examples.empty_db eq_refl eq_refl).
  - discriminate.
  - reflexivity.
  - reflexivity.
Defined.

Lemma addEmbeddingToMemory_frame_witness :
  content (snd (fst Scenarios.ensured)) = content Examples.hello.
Proof.
  apply (@addEmbeddingToMemory_frame
           Sim.State Examples.knowledge_manager Examples.hello
           (fresh Examples.empty_db)
           (fst (fst Scenarios.ensured)) (snd (fst Scenarios.ensured))
           (snd Scenarios.ensured) eq_refl).
Defined.

Lemma addEmbeddingToMemory_calls_witness :
  created (calls (snd Scenarios.ensured)) = []
  /\ lookups (calls (snd Scenarios.ensured)) = []
  /\ clock_reads (calls (snd Scenarios.ensured)) = 0
  /\ (embedder_inputs (calls (snd Scenarios.ensured)) = []
      \/ embedder_inputs (calls (snd Scenarios.ensured)) = [JSString "hello"]
      \/ embedder_inputs (calls (snd Scenarios.ensured)) = [JSString "hello"; JSNull]).
Proof.
  apply (@addEmbeddingToMemory_calls
           Sim.State Examples.knowledge_manager Examples.hello Examples.empty_db
           (fst (fst Scenarios.ensured)) (snd (fst Scenarios.ensured))
           (snd Scenarios.ensured) eq_refl).
Defined.

Lemma addEmbeddingToMemory_idempotent_witness :
  addEmbeddingToMemory Examples.knowledge_manager (snd (fst Scenarios.ensured))
                       (snd Scenarios.ensured)
  = (OK (snd (fst Scenarios.ensured)), snd (fst Scenarios.ensured),
     snd Scenarios.ensured).
Proof.
  apply (@addEmbeddingToMemory_idempotent
           Sim.State Examples.knowledge_manager Examples.hello
           (fresh Examples.empty_db)
           (snd (fst Scenarios.ensured)) (snd (fst Scenarios.ensured))
           (snd Scenarios.ensured) eq_refl).
Defined.

Lemma createMemory_invalid_metadata_fails_first_witness :
  createMemory Sim.Date_now Examples.knowledge_manager
               (Examples.with_metadata Scenarios.invalid_type) false
               (fresh Examples.empty_db)
  = (Throw (Error "Invalid memory type"),
     Examples.with_metadata Scenarios.invalid_type,
     mkWorld Examples.empty_db [Call_getMemoryById Examples.m1_id]).
Proof.
  apply (@createMemory_invalid_metadata_fails_first
           Sim.State Sim.Date_now Examples.knowledge_manager
           (Examples.with_metadata Scenarios.invalid_type) Scenarios.invalid_type
           (Error "Invalid memory type") false Examples.empty_db Examples.empty_db
           eq_refl eq_refl eq_refl).
Defined.

Lemma createMemory_keeps_supplied_embedding_witness :
  embedder_inputs (calls (snd Scenarios.embedded_create)) = []
  /\ embedding (snd (fst Scenarios.embedded_create)) = Some [0.25%float; 0.75%float]
  /\ forall stored table u,
       In (stored, table, u) (created (calls (snd Scenarios.embedded_create))) ->
       embedding stored = Some [0.25%float; 0.75%float].
Proof.
  apply (@createMemory_keeps_supplied_embedding
           Sim.State Sim.Date_now Examples.knowledge_manager Examples.hello_embedded
           [0.25%float; 0.75%float] false Examples.empty_db
           (fst (fst Scenarios.embedded_create)) (snd (fst Scenarios.embedded_create))
           (snd Scenarios.embedded_create) eq_refl eq_refl).
Defined.

Lemma createMemory_embedder_failure_propagates_witness :
  fst (fst Scenarios.crashed_model_create) = Throw Scenarios.model_error
  /\ created (calls (snd Scenarios.crashed_model_create)) = []
  /\ embedder_inputs (calls (snd Scenarios.crashed_model_create)) = [JSNull]
  /\ metadata (content (snd (fst Scenarios.crashed_model_create))) <> None
  /\ embedding (snd (fst Scenarios.crashed_model_create)) = None.
Proof.
  apply (@createMemory_embedder_failure_propagates
           Sim.State Sim.Date_now Scenarios.crashed_model_manager Examples.hello
           Scenarios.model_error false Examples.empty_db Examples.empty_db
           (fst (fst Scenarios.crashed_model_create))
           (snd (fst Scenarios.crashed_model_create))
           (snd Scenarios.crashed_model_create)).
  - intros y. reflexivity.
  - reflexivity.
  - reflexivity.
  - intros md M. discriminate M.
  - reflexivity.
Defined.

Lemma createMemory_outcome_is_the_stores_witness :
  exists y,
    DatabaseAdapter.createMemory Sim.adapter (snd (fst Examples.first_create))
                                 "knowledge" false y
    = (fst (fst Examples.first_create), ext (snd Examples.first_create)).
Proof.
  apply (@createMemory_outcome_is_the_stores
           Sim.State Sim.Date_now Examples.knowledge_manager Examples.hello false
           Examples.empty_db
           (fst (fst Examples.first_create)) (snd (fst Examples.first_create))
           (snd Examples.first_create) eq_refl
           (snd (fst Examples.first_create)) "knowledge" false).
  vm_compute. left. reflexivity.
Defined.

Lemma createMemory_lookup_failure_propagates_witness :
  createMemory Sim.Date_now Scenarios.offline_manager Examples.hello false
               (fresh Examples.empty_db)
  = (Throw Scenarios.store_error, Examples.hello,
     mkWorld Examples.empty_db [Call_getMemoryById Examples.m1_id]).
Proof.
  apply (@createMemory_lookup_failure_propagates
           Sim.State Sim.Date_now Scenarios.offline_manager Examples.hello false
           (fresh Examples.empty_db) Scenarios.store_error Examples.empty_db eq_refl).
Defined.

Lemma createMemory_frame_witness :
  text (content (snd (fst Examples.epoch_create))) = Some "hello".
Proof.
  apply (@createMemory_frame
           Sim.State Sim.Date_now Examples.facts_manager
           (Examples.with_metadata Examples.fact_at_epoch) false Examples.empty_db
           (fst (fst Examples.epoch_create)) (snd (fst Examples.epoch_create))
           (snd Examples.epoch_create) eq_refl).
Defined.

Lemma createMemory_persisted_record_is_complete_witness :
  embedding (snd (fst Examples.epoch_create)) <> None.
Proof.
  apply (@createMemory_persisted_record_is_complete
           Sim.State Sim.Date_now Examples.facts_manager
           (Examples.with_metadata Examples.fact_at_epoch) false Examples.empty_db
           (fst (fst Examples.epoch_create)) (snd (fst Examples.epoch_create))
           (snd Examples.epoch_create) eq_refl
           (snd (fst Examples.epoch_create)) "facts" false).
  vm_compute. left. reflexivity.
Defined.

Lemma createMemory_never_uses_fallback_partition_witness :
  In "messages" ["knowledge"; "messages"; "facts"].
Proof.
  apply (@createMemory_never_uses_fallback_partition
           Sim.State Sim.Date_now Scenarios.notes_manager Examples.hello true
           Examples.empty_db
           (fst (fst Scenarios.notes_create)) (snd (fst Scenarios.notes_create))
           (snd Scenarios.notes_create) eq_refl
           (snd (fst Scenarios.notes_create)) "messages" true).
  vm_compute. left. reflexivity.
Defined.

Lemma createMemory_default_partition_witness :
  "messages" = if tableName Scenarios.notes_manager =? "knowledge"
               then "knowledge" else "messages".
Proof.
  apply (@createMemory_default_partition
           Sim.State Sim.Date_now Scenarios.notes_manager Examples.hello true
           Examples.empty_db
           (fst (fst Scenarios.notes_create)) (snd (fst Scenarios.notes_create))
           (snd Scenarios.notes_create) eq_refl eq_refl
           (snd (fst Scenarios.notes_create)) "messages" true).
  vm_compute. left. reflexivity.
Defined.

Lemma createMemory_blocked_by_foreign_record_witness :
  fst (getMemoryById Scenarios.a2_manager Examples.m1_id
                     (fresh (Examples.db_with Examples.hello))) = OK None
  /\ fst (fst (createMemory Sim.Date_now Scenarios.a2_manager Examples.shared_note true
                            (fresh (Examples.db_with Examples.hello)))) = OK tt
  /\ created (calls (snd (createMemory Sim.Date_now Scenarios.a2_manager
                                       Examples.shared_note true
                                       (fresh (Examples.db_with Examples.hello)))))
     = [].
Proof.
  apply (@createMemory_blocked_by_foreign_record
           Sim.State Sim.Date_now Scenarios.a2_manager Examples.shared_note true
           (fresh (Examples.db_with Examples.hello)) Examples.hello
           (Examples.db_with Examples.hello) eq_refl).
  cbn. discriminate.
Defined.

Lemma createMemory_effects_bounded_witness :
  hd_error (calls (snd Examples.first_create))
  = Some (Call_getMemoryById Examples.m1_id)
  /\ lookups (calls (snd Examples.first_create)) = [Examples.m1_id]
  /\ clock_reads (calls (snd Examples.first_create)) <= 2
  /\ length (embedder_inputs (calls (snd Examples.first_create))) <= 1
  /\ length (created (calls (snd Examples.first_create))) <= 1.
Proof.
  apply (@createMemory_effects_bounded
           Sim.State Sim.Date_now Examples.knowledge_manager Examples.hello false
           Examples.empty_db
           (fst (fst Examples.first_create)) (snd (fst Examples.first_create))
           (snd Examples.first_create) eq_refl).
Defined.

Lemma getMemoryById_never_leaks_witness :
  agentId Examples.hello = Some Examples.a1
  /\ DatabaseAdapter.getMemoryById Sim.adapter Examples.m1_id
       (Examples.db_with Examples.hello)
     = (OK (Some Examples.hello), ext (snd Scenarios.found)).
Proof.
  apply (proj2 (@getMemoryById_never_leaks
                  Sim.State Examples.knowledge_manager Examples.m1_id
                  (fresh (Examples.db_with Examples.hello))
                  (fst Scenarios.found) (snd Scenarios.found) eq_refl)
               Examples.hello eq_refl).
Defined.

Lemma getMemoryById_passes_on_absence_and_failure_witness :
  getMemoryById Examples.knowledge_manager Examples.m1_id (fresh Examples.empty_db)
  = (OK None, mkWorld Examples.empty_db [Call_getMemoryById Examples.m1_id]).
Proof.
  apply (@getMemoryById_passes_on_absence_and_failure
           Sim.State Examples.knowledge_manager Examples.m1_id
           (fresh Examples.empty_db) (OK None) Examples.empty_db eq_refl).
  intros record. discriminate.
Defined.

Lemma passthrough_depends_on_partition_only_witness :
  removeMemory SimQueries.adapter Examples.knowledge_manager Examples.m1_id
  = removeMemory SimQueries.adapter Scenarios.a2_manager Examples.m1_id.
Proof.
  apply (proj1 (proj2 (proj2 (proj2 (proj2
           (@passthrough_depends_on_partition_only
              Sim.State SimQueries.adapter Examples.knowledge_manager
              Scenarios.a2_manager eq_refl)))))
           Examples.m1_id).
Defined.
